(** * base-type-guard: a shallow embedding of the type-guard predicates

    The repository holds two near-duplicate implementations of a library of
    run-time type guards: [src/src/index.ts] (ten predicates) and
    [src/unnamed/part_001] (the comprehensive version).  Both are embedded
    below, each in a module of its own, over one model of ECMAScript values.

    Scope of the value model.  Values are the primitives and objects given
    by their internal slots (their class), their own string-keyed properties
    and the string-keyed properties found on user-defined prototypes.  The
    prototype chain of an object is the standard one of its class, possibly
    extended by user-defined prototypes.  Proxies, symbol-keyed properties,
    replaced built-in prototypes and cyclic object graphs are outside the
    model.  The methods the library calls on values it created itself or on
    primitives ([trim], [test], [some]) are the host's own; the methods it
    calls on the checked value ([getTime], [every]) are looked up on that
    value, where an own or inherited property may stand for them. *)

From Stdlib Require Import ZArith NArith List Bool Lia String Ascii.
From Stdlib Require Import DecimalString.
From Stdlib Require Import Floats.SpecFloat.
Import ListNotations.

Local Open Scope list_scope.

(** ** Strings: sequences of UTF-16 code units *)

Definition jsstring : Type := list N.

(** An ASCII literal as a sequence of code units. *)
Definition str (s : string) : jsstring :=
  map N_of_ascii (list_ascii_of_string s).

Fixpoint jsstring_eqb (a b : jsstring) : bool :=
  match a, b with
  | [], [] => true
  | x :: a', y :: b' => N.eqb x y && jsstring_eqb a' b'
  | _, _ => false
  end.

Definition between (lo hi c : N) : bool := (N.leb lo c && N.leb c hi)%bool.

(** WhiteSpace and LineTerminator code points (ECMA-262, 12.2 and 12.3):
    the characters removed by [String.prototype.trim], skipped by the
    string-to-number conversion and matched by [\s]. *)
Definition is_white_space (c : N) : bool :=
  (N.eqb c 9 || N.eqb c 10 || N.eqb c 11 || N.eqb c 12 || N.eqb c 13
   || N.eqb c 32 || N.eqb c 160 || N.eqb c 5760 || between 8192 8202 c
   || N.eqb c 8232 || N.eqb c 8233 || N.eqb c 8239 || N.eqb c 8287
   || N.eqb c 12288 || N.eqb c 65279)%bool.

Fixpoint trim_start (s : jsstring) : jsstring :=
  match s with
  | [] => []
  | c :: r => if is_white_space c then trim_start r else s
  end.

Definition trim_end (s : jsstring) : jsstring := rev (trim_start (rev s)).

(** [String.prototype.trim] *)
Definition trim (s : jsstring) : jsstring := trim_end (trim_start s).

(** ** Numbers: IEEE 754 binary64 *)

Definition number : Type := spec_float.

Definition prec : Z := 53.
Definition emax : Z := 1024.

Definition NaN : number := S754_nan.
Definition Infinity : number := S754_infinity false.
Definition positive_zero : number := S754_zero false.

(** The Number value for a natural number (exact below 2^53). *)
Definition number_of_nat (n : nat) : number :=
  binary_normalize prec emax (Z.of_nat n) 0 false.

(** [Number.isFinite] on a Number. *)
Definition Number_isFinite (x : number) : bool :=
  match x with
  | S754_zero _ | S754_finite _ _ _ => true
  | S754_infinity _ | S754_nan => false
  end.

(** [isNaN] on a Number. *)
Definition Number_isNaN (x : number) : bool :=
  match x with
  | S754_nan => true
  | _ => false
  end.

(** [Number.isInteger] on a Number: finite with no fractional part. *)
Definition Number_isInteger (x : number) : bool :=
  match x with
  | S754_zero _ => true
  | S754_finite _ m e =>
      (0 <=? e)%Z || (Z.pos m mod 2 ^ (- e) =? 0)%Z
  | S754_infinity _ | S754_nan => false
  end.

(** [x > 0] on Numbers. *)
Definition Number_gt_zero (x : number) : bool := SFltb positive_zero x.

(** [x === 0] on Numbers ([+0] and [-0] are equal). *)
Definition Number_eq_zero (x : number) : bool := SFeqb x positive_zero.

(** *** The string-to-number conversion [Number(string)]
    (ECMA-262, StringToNumber and the StringNumericLiteral grammar). *)

Definition is_digit (c : N) : bool := between 48 57 c.

Definition hex_digit_value (c : N) : option N :=
  if between 48 57 c then Some (c - 48)%N
  else if between 97 102 c then Some (c - 87)%N
  else if between 65 70 c then Some (c - 55)%N
  else None.

Fixpoint span_digits (s : jsstring) : jsstring * jsstring :=
  match s with
  | [] => ([], [])
  | c :: r =>
      if is_digit c
      then let (d, t) := span_digits r in (c :: d, t)
      else ([], s)
  end.

Definition digits_value (d : jsstring) : N :=
  fold_left (fun a c => (10 * a + (c - 48))%N) d 0%N.

(** Digits of a non-decimal literal in radix 2, 8 or 16; [None] when the
    sequence is empty or holds a character that is no digit of the radix. *)
Fixpoint radix_value (radix : N) (acc : N) (s : jsstring) : option N :=
  match s with
  | [] => Some acc
  | c :: r =>
      match hex_digit_value c with
      | Some d =>
          if (d <? radix)%N then radix_value radix (radix * acc + d)%N r
          else None
      | None => None
      end
  end.

Definition non_decimal_literal (s : jsstring) : option N :=
  match s with
  | 48%N :: p :: ((_ :: _) as ds) =>
      if (N.eqb p 120 || N.eqb p 88)%bool then radix_value 16 0 ds
      else if (N.eqb p 111 || N.eqb p 79)%bool then radix_value 8 0 ds
      else if (N.eqb p 98 || N.eqb p 66)%bool then radix_value 2 0 ds
      else None
  | _ => None
  end.

(** ExponentPart_opt followed by the end of the input. *)
Definition exponent_part (s : jsstring) : option Z :=
  match s with
  | [] => Some 0%Z
  | e :: r =>
      if (N.eqb e 101 || N.eqb e 69)%bool then
        let '(neg, r') :=
          match r with
          | 43%N :: t => (false, t)
          | 45%N :: t => (true, t)
          | _ => (false, r)
          end in
        match span_digits r' with
        | ((_ :: _) as d, []) =>
            let v := Z.of_N (digits_value d) in
            Some (if neg then (- v)%Z else v)
        | _ => None
        end
      else None
  end.

(** StrUnsignedDecimalLiteral other than [Infinity]: the mathematical value
    is [mantissa * 10 ^ exponent]. *)
Definition unsigned_decimal (s : jsstring) : option (N * Z) :=
  let (ip, r1) := span_digits s in
  let '(fp, r2) :=
    match r1 with
    | 46%N :: t => span_digits t
    | _ => ([], r1)
    end in
  match ip, fp with
  | [], [] => None
  | _, _ =>
      match exponent_part r2 with
      | Some e =>
          Some (digits_value (ip ++ fp), (e - Z.of_nat (List.length fp))%Z)
      | None => None
      end
  end.

(** The Number value for [m * 10 ^ e], rounded to nearest, ties to even. *)
Definition round_decimal (neg : bool) (m : N) (e : Z) : number :=
  match m with
  | N0 => S754_zero neg
  | Npos p =>
      if (0 <=? e)%Z
      then binary_round prec emax neg (p * Z.to_pos (10 ^ e))%positive 0
      else
        let '(q, e', l) :=
          SFdiv_core_binary prec emax (Z.pos p) 0 (10 ^ (- e)) 0 in
        binary_round_aux prec emax neg q e' l
  end.

Definition str_decimal_literal (neg : bool) (s : jsstring) : number :=
  if jsstring_eqb s (str "Infinity") then S754_infinity neg
  else match unsigned_decimal s with
       | Some (m, e) => round_decimal neg m e
       | None => NaN
       end.

Definition StringToNumber (s : jsstring) : number :=
  match trim s with
  | [] => positive_zero
  | 43%N :: u => str_decimal_literal false u
  | 45%N :: u => str_decimal_literal true u
  | t =>
      match non_decimal_literal t with
      | Some n => round_decimal false n 0
      | None => str_decimal_literal false t
      end
  end.

(** ** Values *)

(** A completion: a returned result or a thrown value. *)
Inductive completion (E A : Type) : Type :=
| Normal (a : A)
| Throw (e : E).

Arguments Normal {E A} a.
Arguments Throw {E A} e.

Inductive function_kind : Type :=
| NormalFunction
| AsyncFunction
| GeneratorFunction
| AsyncGeneratorFunction.

Inductive error_kind : Type :=
| ErrorKind
| TypeErrorKind
| RangeErrorKind
| SyntaxErrorKind.

(** A value is a primitive or an object.  An object is given by its class
    (the internal slots it carries), its own properties and the properties
    found on user-defined prototypes ([inherited]); both are association
    lists in which the first binding of a key is the effective one.  The
    members of the built-in prototype of the class come after them. *)
Inductive value : Type :=
| VUndefined
| VNull
| VBoolean (b : bool)
| VNumber (n : number)
| VString (s : jsstring)
| VSymbol (description : option jsstring)
| VBigInt (z : Z)
| VObject (o : object)

with object : Type :=
| Obj (c : class)
      (own : list (jsstring * property))
      (inherited : list (jsstring * property))

with class : Type :=
| COrdinary                                (* object literal, class instance *)
| CArray (elements : list (option value))  (* [None] is a hole *)
| CFunction (k : function_kind)
| CDate (time : number)
| CRegExp
| CMap (size : nat)
| CSet (size : nat)
| CPromise
| CError (k : error_kind)
| CBooleanObject (b : bool)
| CNumberObject (n : number)
| CStringObject (s : jsstring)

with property : Type :=
| Data (v : value) (enumerable : bool)
| Accessor (get : completion value value) (enumerable : bool).

(** The result of an operation of the host or of the library. *)
Definition result (A : Type) : Type := completion value A.

Definition bind {A B : Type} (m : result A) (f : A -> result B) : result B :=
  match m with
  | Normal a => f a
  | Throw e => Throw e
  end.

Notation "x <- m ;; k" := (bind m (fun x => k))
  (at level 61, m at next level, right associativity).

(** [try { body } catch { handler }] for a body that returns on every
    normal path. *)
Definition try_catch {A : Type} (body handler : result A) : result A :=
  match body with
  | Normal a => Normal a
  | Throw _ => handler
  end.

(** [try { body } catch {} rest]: the body returns ([Some]) or falls through
    ([None]); a thrown value is dropped and control reaches [rest]. *)
Definition try_fallthrough {A : Type} (body : result (option A))
           (rest : result A) : result A :=
  match body with
  | Normal (Some a) => Normal a
  | Normal None => rest
  | Throw _ => rest
  end.

Definition class_of (o : object) : class := let '(Obj c _ _) := o in c.
Definition own_properties (o : object) : list (jsstring * property) :=
  let '(Obj _ own _) := o in own.
Definition inherited_properties (o : object) : list (jsstring * property) :=
  let '(Obj _ _ inh) := o in inh.

Definition enumerable (p : property) : bool :=
  match p with
  | Data _ e => e
  | Accessor _ e => e
  end.

(** An object of a class with no own and no user-inherited properties. *)
Definition instance (c : class) : value := VObject (Obj c [] []).

(** An error object as [new TypeError(message)] and the like build it; the
    errors the host raises carry an implementation-defined message, which is
    left out. *)
Definition error_object (k : error_kind) (message : option jsstring) : value :=
  VObject (Obj (CError k)
               match message with
               | Some m => [(str "message", Data (VString m) false)]
               | None => []
               end
               []).

Definition host_TypeError : value := error_object TypeErrorKind None.

(** *** [typeof] *)

Inductive type_name : Type :=
| T_undefined | T_object | T_boolean | T_number | T_string
| T_symbol | T_bigint | T_function.

Definition typeof (v : value) : type_name :=
  match v with
  | VUndefined => T_undefined
  | VNull => T_object
  | VBoolean _ => T_boolean
  | VNumber _ => T_number
  | VString _ => T_string
  | VSymbol _ => T_symbol
  | VBigInt _ => T_bigint
  | VObject (Obj (CFunction _) _ _) => T_function
  | VObject _ => T_object
  end.

Definition type_name_eqb (a b : type_name) : bool :=
  match a, b with
  | T_undefined, T_undefined | T_object, T_object | T_boolean, T_boolean
  | T_number, T_number | T_string, T_string | T_symbol, T_symbol
  | T_bigint, T_bigint | T_function, T_function => true
  | _, _ => false
  end.

Definition type_name_string (t : type_name) : jsstring :=
  match t with
  | T_undefined => str "undefined"
  | T_object => str "object"
  | T_boolean => str "boolean"
  | T_number => str "number"
  | T_string => str "string"
  | T_symbol => str "symbol"
  | T_bigint => str "bigint"
  | T_function => str "function"
  end.

(** [value == null] *)
Definition loosely_null (v : value) : bool :=
  match v with
  | VUndefined | VNull => true
  | _ => false
  end.

(** *** Classification by internal slots and prototype chain *)

(** [Array.isArray] *)
Definition Array_isArray (v : value) : bool :=
  match v with
  | VObject (Obj (CArray _) _ _) => true
  | _ => false
  end.

Inductive constructor : Type :=
| Date_ | RegExp_ | Map_ | Set_ | Promise_.

(** [v instanceof C]: the prototype chain is the standard one of the class. *)
Definition instanceof (v : value) (C : constructor) : bool :=
  match v, C with
  | VObject (Obj (CDate _) _ _), Date_ => true
  | VObject (Obj CRegExp _ _), RegExp_ => true
  | VObject (Obj (CMap _) _ _), Map_ => true
  | VObject (Obj (CSet _) _ _), Set_ => true
  | VObject (Obj CPromise _ _), Promise_ => true
  | _, _ => false
  end.

Definition function_kind_name (k : function_kind) : jsstring :=
  match k with
  | NormalFunction => str "Function"
  | AsyncFunction => str "AsyncFunction"
  | GeneratorFunction => str "GeneratorFunction"
  | AsyncGeneratorFunction => str "AsyncGeneratorFunction"
  end.

Definition error_kind_name (k : error_kind) : jsstring :=
  match k with
  | ErrorKind => str "Error"
  | TypeErrorKind => str "TypeError"
  | RangeErrorKind => str "RangeError"
  | SyntaxErrorKind => str "SyntaxError"
  end.

(** The tag [Object.prototype.toString] puts between [[object ] and []]: the
    built-in tag of the class, or the [Symbol.toStringTag] of the built-in
    prototype (Map, Set, Promise, Symbol, BigInt, and the prototypes of
    async and generator functions). *)
Definition class_tag (c : class) : jsstring :=
  match c with
  | COrdinary => str "Object"
  | CArray _ => str "Array"
  | CFunction k => function_kind_name k
  | CDate _ => str "Date"
  | CRegExp => str "RegExp"
  | CMap _ => str "Map"
  | CSet _ => str "Set"
  | CPromise => str "Promise"
  | CError _ => str "Error"
  | CBooleanObject _ => str "Boolean"
  | CNumberObject _ => str "Number"
  | CStringObject _ => str "String"
  end.

Definition toStringTag (v : value) : jsstring :=
  match v with
  | VUndefined => str "Undefined"
  | VNull => str "Null"
  | VBoolean _ => str "Boolean"
  | VNumber _ => str "Number"
  | VString _ => str "String"
  | VSymbol _ => str "Symbol"
  | VBigInt _ => str "BigInt"
  | VObject o => class_tag (class_of o)
  end.

(** [Object.prototype.toString.call(v)] *)
Definition Object_prototype_toString (v : value) : jsstring :=
  str "[object " ++ toStringTag v ++ str "]".

(** *** Properties *)

Fixpoint lookup (k : jsstring) (ps : list (jsstring * property))
  : option property :=
  match ps with
  | [] => None
  | (k', p) :: r => if jsstring_eqb k k' then Some p else lookup k r
  end.

Definition read (p : property) : result value :=
  match p with
  | Data v _ => Normal v
  | Accessor g _ => g
  end.

(** A built-in function object of the given name. *)
Definition builtin_function (name : jsstring) : value :=
  VObject (Obj (CFunction NormalFunction)
               [(str "name", Data (VString name) false)] []).

(** The name of the constructor found on the built-in prototype. *)
Definition class_constructor_name (c : class) : jsstring :=
  match c with
  | CError k => error_kind_name k
  | _ => class_tag c
  end.

(** The members of the built-in prototypes (and the intrinsic own members)
    that the library reads: [constructor], [size], [then], [name]; any other
    name reads as [undefined] here. *)
Definition builtin_member (c : class) (k : jsstring) : value :=
  if jsstring_eqb k (str "constructor")
  then builtin_function (class_constructor_name c)
  else if jsstring_eqb k (str "size")
  then match c with
       | CMap n | CSet n => VNumber (number_of_nat n)
       | _ => VUndefined
       end
  else if jsstring_eqb k (str "then")
  then match c with
       | CPromise => builtin_function (str "then")
       | _ => VUndefined
       end
  else if jsstring_eqb k (str "name")
  then match c with
       | CFunction _ => VString []
       | CError e => VString (error_kind_name e)
       | _ => VUndefined
       end
  else VUndefined.

(** [o.k]: own property, then user prototypes, then the built-in prototype. *)
Definition Get (o : object) (k : jsstring) : result value :=
  match lookup k (own_properties o) with
  | Some p => read p
  | None =>
      match lookup k (inherited_properties o) with
      | Some p => read p
      | None => Normal (builtin_member (class_of o) k)
      end
  end.

(** The members a primitive other than [null] and [undefined] inherits from
    its wrapper prototype, as far as the library reads them: [constructor]
    and the [length] of a string; [name], [then] and [size] are on none. *)
Definition primitive_member (v : value) (k : jsstring) : value :=
  if jsstring_eqb k (str "constructor")
  then builtin_function (toStringTag v)
  else if jsstring_eqb k (str "length")
  then match v with
       | VString s => VNumber (number_of_nat (List.length s))
       | _ => VUndefined
       end
  else VUndefined.

(** [v.k] on any value: reading a property of [null] or [undefined] raises
    a TypeError. *)
Definition GetV (v : value) (k : jsstring) : result value :=
  match v with
  | VUndefined | VNull => Throw host_TypeError
  | VObject o => Get o k
  | _ => Normal (primitive_member v k)
  end.

(** [v === 0] *)
Definition strictly_zero (v : value) : bool :=
  match v with
  | VNumber x => Number_eq_zero x
  | _ => false
  end.

(** [v === s] for a string literal [s] *)
Definition strictly_string (v : value) (s : jsstring) : bool :=
  match v with
  | VString t => jsstring_eqb t s
  | _ => false
  end.

Definition index_key (i : nat) : jsstring :=
  str (NilEmpty.string_of_uint (Nat.to_uint i)).

(** The keys of the own enumerable properties in an association list; a key
    bound earlier hides later bindings of it. *)
Fixpoint enumerable_keys (seen : list jsstring)
         (ps : list (jsstring * property)) : list jsstring :=
  match ps with
  | [] => []
  | (k, p) :: r =>
      if existsb (jsstring_eqb k) seen then enumerable_keys seen r
      else (if enumerable p then [k] else []) ++ enumerable_keys (k :: seen) r
  end.

Fixpoint element_keys (i : nat) (es : list (option value)) : list jsstring :=
  match es with
  | [] => []
  | Some _ :: r => index_key i :: element_keys (S i) r
  | None :: r => element_keys (S i) r
  end.

(** The index keys an exotic object owns besides its listed properties. *)
Definition exotic_keys (c : class) : list jsstring :=
  match c with
  | CArray es => element_keys 0 es
  | CStringObject s => map index_key (seq 0 (List.length s))
  | _ => []
  end.

(** [Object.keys(o)] *)
Definition Object_keys (o : object) : list jsstring :=
  exotic_keys (class_of o)
  ++ enumerable_keys (exotic_keys (class_of o)) (own_properties o).

(** [Object.keys(v)]: [null] and [undefined] have no object form. *)
Definition Object_keys_of (v : value) : result (list jsstring) :=
  match v with
  | VUndefined | VNull => Throw host_TypeError
  | VObject o => Normal (Object_keys o)
  | VString s => Normal (map index_key (seq 0 (List.length s)))
  | _ => Normal []
  end.

(** ** Regular expressions

    The patterns of the library are anchored at both ends and use character
    classes, concatenation, [+] and bounded repetition; [test] is a match of
    the whole input, decided by derivatives. *)

Inductive regex : Type :=
| Void
| Eps
| Class (p : N -> bool)
| Cat (r1 r2 : regex)
| Alt (r1 r2 : regex)
| Star (r : regex).

Fixpoint nullable (r : regex) : bool :=
  match r with
  | Void => false
  | Eps => true
  | Class _ => false
  | Cat r1 r2 => nullable r1 && nullable r2
  | Alt r1 r2 => nullable r1 || nullable r2
  | Star _ => true
  end.

Fixpoint derive (c : N) (r : regex) : regex :=
  match r with
  | Void => Void
  | Eps => Void
  | Class p => if p c then Eps else Void
  | Cat r1 r2 =>
      if nullable r1
      then Alt (Cat (derive c r1) r2) (derive c r2)
      else Cat (derive c r1) r2
  | Alt r1 r2 => Alt (derive c r1) (derive c r2)
  | Star r1 => Cat (derive c r1) (Star r1)
  end.

Fixpoint matches (r : regex) (s : jsstring) : bool :=
  match s with
  | [] => nullable r
  | c :: t => matches (derive c r) t
  end.

(** [r+] *)
Definition Plus (r : regex) : regex := Cat r (Star r).

(** [r{n}] *)
Fixpoint Repeat (n : nat) (r : regex) : regex :=
  match n with
  | O => Eps
  | S n' => Cat r (Repeat n' r)
  end.

(** A literal character. *)
Definition Char (c : N) : regex := Class (N.eqb c).

(** Canonicalization of a code unit under the [i] flag without the [u]
    flag: the upper-case form; exact on ASCII, and a code unit outside ASCII
    never canonicalizes into ASCII. *)
Definition canonicalize (c : N) : N :=
  if between 97 122 c then (c - 32)%N else c.

(** An ASCII character class under the [i] flag: [c] matches when its
    canonical form is the canonical form of a member. *)
Definition ignore_case (p : N -> bool) (c : N) : bool :=
  p c || p (canonicalize c)
  || (if between 65 90 c then p (c + 32)%N else false).

(** ** The host

    The conversions whose result is implementation-defined or runs user
    code are left to the host: the text of a Number, the string conversion
    of an object (its [toString] and [valueOf]), the URL parser, the JSON
    serialization of an object (its [toJSON], its members), the numeric
    conversion of an object, and what a function does when called: [Call f
    this arguments] for a call with values, [Call_with_predicate f this p]
    for a call whose one argument is a predicate. *)

(** [JSON.stringify] returns a String or [undefined]; the library discards
    the text, so only which of the two it is is kept. *)
Inductive json_output : Type :=
| json_text
| json_undefined.

Record host : Type := Host {
  Number_toString : number -> jsstring;
  Object_toString : object -> result jsstring;
  URL_new : jsstring -> result unit;
  JSON_serialize_object : object -> result json_output;
  Object_toNumber : object -> result number;
  Call : value -> value -> list value -> result value;
  Call_with_predicate :
    value -> value -> (value -> result bool) -> result value
}.

Definition BigInt_toString (z : Z) : jsstring :=
  str (NilZero.string_of_int (Z.to_int z)).

(** [ToString(v)], the conversion a template literal applies. *)
Definition ToString (H : host) (v : value) : result jsstring :=
  match v with
  | VUndefined => Normal (str "undefined")
  | VNull => Normal (str "null")
  | VBoolean true => Normal (str "true")
  | VBoolean false => Normal (str "false")
  | VNumber n => Normal (Number_toString H n)
  | VString s => Normal s
  | VSymbol _ => Throw host_TypeError
  | VBigInt z => Normal (BigInt_toString z)
  | VObject o => Object_toString H o
  end.

(** [JSON.stringify(v)] with no replacer (SerializeJSONProperty on the
    wrapper holding [v]): [undefined] and symbols yield [undefined], a
    BigInt raises a TypeError, the other primitives yield text. *)
Definition JSON_stringify (H : host) (v : value) : result json_output :=
  match v with
  | VUndefined | VSymbol _ => Normal json_undefined
  | VNull | VBoolean _ | VNumber _ | VString _ => Normal json_text
  | VBigInt _ => Throw host_TypeError
  | VObject o => JSON_serialize_object H o
  end.

(** A user-supplied predicate [(val: unknown) => boolean]. *)
Definition predicate : Type := value -> result bool.


(** [Array.prototype.some] over an array of predicates applied to [v]. *)
Fixpoint Array_some (ps : list predicate) (v : value) : result bool :=
  match ps with
  | [] => Normal false
  | p :: r =>
      b <- p v ;;
      if b then Normal true else Array_some r v
  end.

(** *** Method calls on the checked value *)

(** The member [k] as an own property or a property of a user-defined
    prototype; [None] when neither binds [k], so that the lookup reaches the
    built-in prototype of the class. *)
Definition shadowing_member (o : object) (k : jsstring)
  : option (result value) :=
  match lookup k (own_properties o) with
  | Some p => Some (read p)
  | None =>
      match lookup k (inherited_properties o) with
      | Some p => Some (read p)
      | None => None
      end
  end.

(** Whether the value binds [k] before the built-in prototype. *)
Definition redefines (v : value) (k : jsstring) : bool :=
  match v with
  | VObject o =>
      match shadowing_member o k with
      | Some _ => true
      | None => false
      end
  | _ => false
  end.

(** [ToNumber(v)], the conversion [isNaN] applies to its argument. *)
Definition ToNumber (H : host) (v : value) : result number :=
  match v with
  | VUndefined => Normal NaN
  | VNull => Normal positive_zero
  | VBoolean true => Normal (number_of_nat 1)
  | VBoolean false => Normal positive_zero
  | VNumber n => Normal n
  | VString s => Normal (StringToNumber s)
  | VSymbol _ => Throw host_TypeError
  | VBigInt _ => Throw host_TypeError
  | VObject o => Object_toNumber H o
  end.

(** The global [isNaN(v)] *)
Definition global_isNaN (H : host) (v : value) : result bool :=
  n <- ToNumber H v ;;
  Normal (Number_isNaN n).

(** [v.getTime()]: the member is looked up on [v].  When nothing stands
    before it, the method of [Date.prototype] returns the time value of a
    Date and raises a TypeError on any other receiver (a value with no such
    member has nothing to call, a TypeError as well).  A member found before
    it is called if it is a function; calling anything else is a
    TypeError. *)
Definition Date_getTime (H : host) (v : value) : result value :=
  match v with
  | VObject o =>
      match shadowing_member o (str "getTime") with
      | None =>
          match class_of o with
          | CDate t => Normal (VNumber t)
          | _ => Throw host_TypeError
          end
      | Some member =>
          f <- member ;;
          if type_name_eqb (typeof f) T_function
          then Call H f v []
          else Throw host_TypeError
      end
  | _ => Throw host_TypeError
  end.


(** ** The comprehensive library: [src/unnamed/part_001] *)

Module Part001.

(* ---- basic type checkers ---- *)

Definition isNumeric (v : value) : result bool :=
  match v with
  | VNumber n => Normal (Number_isFinite n)
  | VString s =>
      let trimmed := trim s in
      Normal (negb (jsstring_eqb trimmed [])
              && Number_isFinite (StringToNumber trimmed))
  | _ => Normal false
  end.

Definition isString (v : value) : result bool :=
  Normal (type_name_eqb (typeof v) T_string).

Definition isNonEmptyString (v : value) : result bool :=
  match v with
  | VString s => Normal (0 <? List.length (trim s))
  | _ => Normal false
  end.

Definition isBoolean (v : value) : result bool :=
  Normal (type_name_eqb (typeof v) T_boolean).

Definition isNumber (v : value) : result bool :=
  match v with
  | VNumber n => Normal (Number_isFinite n)
  | _ => Normal false
  end.

Definition isInteger (v : value) : result bool :=
  match v with
  | VNumber n => Normal (Number_isInteger n)
  | _ => Normal false
  end.

Definition isPositiveNumber (v : value) : result bool :=
  match v with
  | VNumber n => Normal (Number_isFinite n && Number_gt_zero n)
  | _ => Normal false
  end.

Definition isBigInt (v : value) : result bool :=
  Normal (type_name_eqb (typeof v) T_bigint).

Definition isSymbol (v : value) : result bool :=
  Normal (type_name_eqb (typeof v) T_symbol).

(* ---- complex type checkers ---- *)

Definition isArray (v : value) : result bool :=
  Normal (Array_isArray v).

Definition isNonEmptyArray (v : value) : result bool :=
  match v with
  | VObject (Obj (CArray es) _ _) => Normal (0 <? List.length es)
  | _ => Normal false
  end.

Definition isObject (v : value) : result bool :=
  Normal (jsstring_eqb (Object_prototype_toString v) (str "[object Object]")).

Definition isNonEmptyObject (v : value) : result bool :=
  b <- isObject v ;;
  if b then
    keys <- Object_keys_of v ;;
    Normal (0 <? List.length keys)
  else Normal false.

Definition isDate (H : host) (v : value) : result bool :=
  if instanceof v Date_ then
    t <- Date_getTime H v ;;
    nan <- global_isNaN H t ;;
    Normal (negb nan)
  else Normal false.

Definition isRegExp (v : value) : result bool :=
  Normal (instanceof v RegExp_).

Definition isMap (v : value) : result bool :=
  Normal (instanceof v Map_).

Definition isSet (v : value) : result bool :=
  Normal (instanceof v Set_).

Definition isFunction (v : value) : result bool :=
  Normal (type_name_eqb (typeof v) T_function).

Definition isAsyncFunction (v : value) : result bool :=
  if type_name_eqb (typeof v) T_function then
    c <- GetV v (str "constructor") ;;
    n <- GetV c (str "name") ;;
    Normal (strictly_string n (str "AsyncFunction"))
  else Normal false.

Definition isPromise (v : value) : result bool :=
  if instanceof v Promise_ then Normal true
  else if type_name_eqb (typeof v) T_object
  then match v with
       | VNull => Normal false
       | _ =>
           t <- GetV v (str "then") ;;
           Normal (type_name_eqb (typeof t) T_function)
       end
  else Normal false.

(* ---- null / undefined checkers ---- *)

Definition isNull (v : value) : result bool :=
  Normal match v with VNull => true | _ => false end.

Definition isUndefined (v : value) : result bool :=
  Normal match v with VUndefined => true | _ => false end.

Definition isNullish (v : value) : result bool :=
  Normal (loosely_null v).

Definition isDefined (v : value) : result bool :=
  Normal (negb (loosely_null v)).

(* ---- emptiness checkers ---- *)

Definition isEmpty (v : value) : result bool :=
  if loosely_null v then Normal true
  else match v with
  | VString s => Normal (List.length (trim s) =? 0)
  | VObject (Obj (CArray es) _ _) => Normal (List.length es =? 0)
  | _ =>
      if instanceof v Map_ || instanceof v Set_ then
        size <- GetV v (str "size") ;;
        Normal (strictly_zero size)
      else
        b <- isObject v ;;
        if b then
          keys <- Object_keys_of v ;;
          Normal (List.length keys =? 0)
        else Normal false
  end.

Definition isNotEmpty (v : value) : result bool :=
  b <- isEmpty v ;;
  Normal (negb b).

(* ---- advanced type checkers ---- *)

Definition isUrl (H : host) (v : value) : result bool :=
  match v with
  | VString s =>
      try_catch (_ <- URL_new H s ;; Normal true) (Normal false)
  | _ => Normal false
  end.

(** [[^\s@]] *)
Definition not_space_or_at (c : N) : bool :=
  negb (is_white_space c || N.eqb c 64).

(** [/^[^\s@]+@[^\s@]+\.[^\s@]+$/] *)
Definition emailRegex : regex :=
  Cat (Plus (Class not_space_or_at))
      (Cat (Char 64)
           (Cat (Plus (Class not_space_or_at))
                (Cat (Char 46) (Plus (Class not_space_or_at))))).

Definition isEmail (v : value) : result bool :=
  match v with
  | VString s => Normal (matches emailRegex s)
  | _ => Normal false
  end.

(** [[0-9a-f]], [[1-5]] and [[89ab]] under the [i] flag. *)
Definition hex_class : N -> bool :=
  ignore_case (fun c => between 48 57 c || between 97 102 c).
Definition version_class : N -> bool :=
  ignore_case (between 49 53).
Definition variant_class : N -> bool :=
  ignore_case (fun c => N.eqb c 56 || N.eqb c 57 || N.eqb c 97 || N.eqb c 98).

(** [/^[0-9a-f]{8}-[0-9a-f]{4}-[1-5][0-9a-f]{3}-[89ab][0-9a-f]{3}-[0-9a-f]{12}$/i] *)
Definition uuidRegex : regex :=
  Cat (Repeat 8 (Class hex_class))
      (Cat (Char 45)
      (Cat (Repeat 4 (Class hex_class))
      (Cat (Char 45)
      (Cat (Class version_class)
      (Cat (Repeat 3 (Class hex_class))
      (Cat (Char 45)
      (Cat (Class variant_class)
      (Cat (Repeat 3 (Class hex_class))
      (Cat (Char 45)
           (Repeat 12 (Class hex_class))))))))))).

Definition isUuid (v : value) : result bool :=
  match v with
  | VString s => Normal (matches uuidRegex s)
  | _ => Normal false
  end.

Definition isPrimitive (v : value) : result bool :=
  let type := typeof v in
  Normal (loosely_null v
          || type_name_eqb type T_string
          || type_name_eqb type T_number
          || type_name_eqb type T_boolean
          || type_name_eqb type T_symbol
          || type_name_eqb type T_bigint).

Definition isJsonSerializable (H : host) (v : value) : result bool :=
  try_catch (_ <- JSON_stringify H v ;; Normal true) (Normal false).

(* ---- utility functions ---- *)

Definition getType (v : value) : result jsstring :=
  match v with
  | VNull => Normal (str "null")
  | VUndefined => Normal (str "undefined")
  | _ =>
      if Array_isArray v then Normal (str "array")
      else if instanceof v Date_ then Normal (str "date")
      else if instanceof v RegExp_ then Normal (str "regexp")
      else if instanceof v Map_ then Normal (str "map")
      else if instanceof v Set_ then Normal (str "set")
      else if instanceof v Promise_ then Normal (str "promise")
      else Normal (type_name_string (typeof v))
  end.

Definition default_message_prefix : jsstring :=
  str "Type assertion failed for value: ".

(** [message || `Type assertion failed for value: ${value}`]: an absent
    or empty message is falsy. *)
Definition assertion_message (H : host) (v : value)
           (message : option jsstring) : result jsstring :=
  match message with
  | Some ((_ :: _) as m) => Normal m
  | _ =>
      rendering <- ToString H v ;;
      Normal (default_message_prefix ++ rendering)
  end.

Definition assertType (H : host) (v : value) (p : predicate)
           (message : option jsstring) : result unit :=
  b <- p v ;;
  if negb b then
    m <- assertion_message H v message ;;
    Throw (error_object TypeErrorKind (Some m))
  else Normal tt.

(* ---- composite checkers ---- *)




Definition isOneOf (predicates : list predicate) : predicate :=
  fun v => Array_some predicates v.

End Part001.

(** ** The short library: [src/src/index.ts] *)

Module Index.

Definition isNumeric (v : value) : result bool :=
  try_fallthrough
    match v with
    | VNumber n => Normal (Some (Number_isFinite n))
    | VString s =>
        if negb (jsstring_eqb (trim s) [])
        then Normal (Some (Number_isFinite (StringToNumber s)))
        else Normal None
    | _ => Normal None
    end
    (Normal false).

Definition isString (v : value) : result bool :=
  Normal (type_name_eqb (typeof v) T_string).

Definition isBoolean (v : value) : result bool :=
  Normal (type_name_eqb (typeof v) T_boolean).

Definition isArray (v : value) : result bool :=
  Normal (Array_isArray v).

Definition isObject (v : value) : result bool :=
  Normal (match v with VNull => false | _ => true end
          && type_name_eqb (typeof v) T_object
          && negb (Array_isArray v)).

Definition isDate (H : host) (v : value) : result bool :=
  if instanceof v Date_ then
    t <- Date_getTime H v ;;
    nan <- global_isNaN H t ;;
    Normal (negb nan)
  else Normal false.

Definition isFunction (v : value) : result bool :=
  Normal (type_name_eqb (typeof v) T_function).

Definition isNull (v : value) : result bool :=
  Normal match v with VNull => true | _ => false end.

Definition isUndefined (v : value) : result bool :=
  Normal match v with VUndefined => true | _ => false end.

Definition isEmpty (v : value) : result bool :=
  try_fallthrough
    (if loosely_null v then Normal (Some true)
     else match v with
     | VString s => Normal (Some (List.length s =? 0))
     | VObject (Obj (CArray es) _ _) => Normal (Some (List.length es =? 0))
     | _ =>
         if instanceof v Map_ || instanceof v Set_ then
           size <- GetV v (str "size") ;;
           Normal (Some (strictly_zero size))
         else if type_name_eqb (typeof v) T_object then
           keys <- Object_keys_of v ;;
           Normal (Some (List.length keys =? 0))
         else Normal None
     end)
    (Normal false).

End Index.

(** ** What the specification says, in its own words *)

(** The specialized built-in structural kinds of the specification: date,
    regular expression, map, set, function "etc.". *)
Definition specialized_kind (c : class) : bool :=
  match c with
  | COrdinary | CArray _ => false
  | CFunction _ | CDate _ | CRegExp | CMap _ | CSet _ | CPromise
  | CError _ | CBooleanObject _ | CNumberObject _ | CStringObject _ => true
  end.

(** A plain keyed record: an object (so not null), not an array, and not an
    instance of a specialized built-in kind. *)
Definition plain_keyed_record (v : value) : Prop :=
  exists o, v = VObject o
            /\ Array_isArray v = false
            /\ specialized_kind (class_of o) = false.

(** A string made of white space only. *)
Definition whitespace_only (s : jsstring) : Prop :=
  forallb is_white_space s = true.

(** The values the specification calls numeric: a finite number, or a string
    whose trimmed form is non-empty and converts to a finite number. *)
Definition numeric_value (v : value) : Prop :=
  (exists n, v = VNumber n /\ Number_isFinite n = true)
  \/ (exists s, v = VString s
                /\ trim s <> []
                /\ Number_isFinite (StringToNumber (trim s)) = true).

(** A thenable object: a non-null value of type "object" whose [then]
    member is callable. *)
Definition thenable_object (v : value) : Prop :=
  typeof v = T_object /\ v <> VNull
  /\ exists t, GetV v (str "then") = Normal t /\ typeof t = T_function.

(** A hexadecimal digit in either case. *)
Definition hex_digit (c : N) : bool :=
  between 48 57 c || between 97 102 c || between 65 70 c.

(** The canonical 8-4-4-4-12 layout: five groups of hexadecimal digits
    separated by hyphens, the third group starting with a digit in 1-5 and
    the fourth with one of 8, 9, a, b (in either case). *)
Definition uuid_layout (s : jsstring) : Prop :=
  exists g1 g2 version g3 variant g4 g5,
    s = g1 ++ [45%N] ++ g2 ++ [45%N] ++ (version :: g3) ++ [45%N]
        ++ (variant :: g4) ++ [45%N] ++ g5
    /\ List.length g1 = 8 /\ List.length g2 = 4 /\ List.length g3 = 3
    /\ List.length g4 = 3 /\ List.length g5 = 12
    /\ forallb hex_digit g1 = true /\ forallb hex_digit g2 = true
    /\ forallb hex_digit g3 = true /\ forallb hex_digit g4 = true
    /\ forallb hex_digit g5 = true
    /\ between 49 53 version = true
    /\ In variant [56; 57; 97; 98; 65; 66]%N.

(** The language of a regular expression. *)
Inductive lang : regex -> jsstring -> Prop :=
| lang_Eps : lang Eps []
| lang_Class p c : p c = true -> lang (Class p) [c]
| lang_Cat r1 r2 s1 s2 :
    lang r1 s1 -> lang r2 s2 -> lang (Cat r1 r2) (s1 ++ s2)
| lang_Alt_l r1 r2 s : lang r1 s -> lang (Alt r1 r2) s
| lang_Alt_r r1 r2 s : lang r2 s -> lang (Alt r1 r2) s
| lang_Star_nil r : lang (Star r) []
| lang_Star_cons r s1 s2 :
    lang r s1 -> lang (Star r) s2 -> lang (Star r) (s1 ++ s2).

(** ** Sample values and a sample host *)

(** [{}] *)
Definition empty_object : value := instance COrdinary.

(** [{a: 1}] *)
Definition object_a_1 : value :=
  VObject (Obj COrdinary [(str "a", Data (VNumber (number_of_nat 1)) true)] []).

(** [[]] and [[1]] *)
Definition empty_array : value := instance (CArray []).
Definition array_1 : value :=
  instance (CArray [Some (VNumber (number_of_nat 1))]).

(** [new Date(0)] *)
Definition epoch_date : value := instance (CDate positive_zero).

(** ["   "] *)
Definition three_spaces : value := VString (str "   ").

(** [const f = () => {}; f.then = () => {}] *)
Definition function_with_then : value :=
  VObject (Obj (CFunction NormalFunction)
               [(str "then", Data (instance (CFunction NormalFunction)) true)]
               []).

(** [const f = () => {}; f.constructor = null] *)
Definition function_with_null_constructor : value :=
  VObject (Obj (CFunction NormalFunction)
               [(str "constructor", Data VNull true)] []).

(** [const m = new Map();
     Object.defineProperty(m, "size", { get() { throw new Error("no") } })] *)
Definition map_with_raising_size : value :=
  VObject (Obj (CMap 0)
               [(str "size",
                 Accessor (Throw (error_object ErrorKind (Some (str "no"))))
                          false)]
               []).

(** A host to run examples on: it refuses to convert objects, to parse
    URLs and to run functions, and its rendering of numbers is a
    placeholder.  The examples below involve none of these. *)
Definition sample_host : host :=
  Host (fun _ => str "0")
       (fun _ => Throw host_TypeError)
       (fun _ => Throw host_TypeError)
       (fun _ => Normal json_text)
       (fun _ => Throw host_TypeError)
       (fun _ _ _ => Throw host_TypeError)
       (fun _ _ _ => Throw host_TypeError).

(** ** Further notions, for the statements about the other guards *)


(** A string of the shape the e-mail pattern describes: three non-empty
    runs of characters that are neither white space nor [@], the first two
    separated by [@] and the last two by a dot. *)
Definition email_layout (s : jsstring) : Prop :=
  exists local domain suffix,
    s = local ++ [64%N] ++ domain ++ [46%N] ++ suffix
    /\ local <> [] /\ domain <> [] /\ suffix <> []
    /\ forallb Part001.not_space_or_at local = true
    /\ forallb Part001.not_space_or_at domain = true
    /\ forallb Part001.not_space_or_at suffix = true.

(** Every character class of the expression gives the same answer on [c]
    and on [f c]. *)
Fixpoint classes_respect (f : N -> N) (r : regex) : Prop :=
  match r with
  | Void | Eps => True
  | Class p => forall c, p (f c) = p c
  | Cat r1 r2 | Alt r1 r2 => classes_respect f r1 /\ classes_respect f r2
  | Star r1 => classes_respect f r1
  end.

(** The values on which the two implementations of [isEmpty] part ways: a
    non-empty string of white space; an object of type "object" other than
    a plain record, an array, a Map or a Set, with no enumerable own key;
    and a Map or Set whose [size] cannot be read. *)
Definition isEmpty_disagreement (v : value) : Prop :=
  (exists s, v = VString s /\ s <> [] /\ whitespace_only s)
  \/ (exists o, v = VObject o
                 /\ typeof v = T_object
                 /\ specialized_kind (class_of o) = true
                 /\ instanceof v Map_ = false /\ instanceof v Set_ = false
                 /\ Object_keys o = [])
  \/ (exists e, (instanceof v Map_ = true \/ instanceof v Set_ = true)
                 /\ GetV v (str "size") = Throw e).


(** A predicate that raises on every value. *)
Definition raising_predicate : predicate :=
  fun _ => Throw (error_object ErrorKind None).

(** [const f = () => {}; f.constructor = { name: "AsyncFunction" }] *)
Definition function_posing_as_async : value :=
  VObject (Obj (CFunction NormalFunction)
               [(str "constructor",
                 Data (VObject (Obj COrdinary
                                    [(str "name",
                                      Data (VString (str "AsyncFunction")) true)]
                                    []))
                      true)]
               []).

(** ** Tactics *)

(** Decide the comparisons of a code unit against constants from the bounds
    in the context. *)
Ltac settle_comparison :=
  match goal with
  | |- context [N.leb ?a ?b] =>
      first [ replace (N.leb a b) with true
                by (symmetry; apply N.leb_le; lia)
            | replace (N.leb a b) with false
                by (symmetry; apply N.leb_gt; lia) ]
  | |- context [N.eqb ?a ?b] =>
      first [ replace (N.eqb a b) with true
                by (symmetry; apply N.eqb_eq; lia)
            | replace (N.eqb a b) with false
                by (symmetry; apply N.eqb_neq; lia) ]
  end.

Ltac settle_comparisons :=
  repeat first [ settle_comparison | progress (cbn [andb orb negb]) ].

(** Settle an equivalence between two evaluated results. *)
Ltac by_evaluation :=
  intros;
  first [ reflexivity
        | match goal with
          | E : _ = Normal _ |- _ => vm_compute in E; discriminate E
          end ].

(** ** Facts about strings *)

Lemma jsstring_eqb_eq (a b : jsstring) : jsstring_eqb a b = true <-> a = b.
Proof.
  revert b; induction a as [|x a IH]; intros [|y b]; simpl;
    try (split; [discriminate | congruence]); try tauto.
  rewrite andb_true_iff, N.eqb_eq, IH.
  split; [intros [-> ->]; reflexivity | intros E; inversion E; auto].
Qed.

Lemma jsstring_eqb_nil (s : jsstring) :
  jsstring_eqb s [] = match s with [] => true | _ => false end.
Proof. destruct s; reflexivity. Qed.

Lemma trim_start_whitespace_only (s : jsstring) :
  whitespace_only s -> trim_start s = [].
Proof.
  unfold whitespace_only; induction s as [|c s IH]; simpl; [reflexivity|].
  rewrite andb_true_iff; intros [-> Hs]; auto.
Qed.

Lemma trim_whitespace_only (s : jsstring) : whitespace_only s -> trim s = [].
Proof.
  intros Hs; unfold trim, trim_end.
  rewrite (trim_start_whitespace_only s Hs); reflexivity.
Qed.

Lemma trim_start_idempotent (s : jsstring) :
  trim_start (trim_start s) = trim_start s.
Proof.
  induction s as [|c s IH]; simpl; [reflexivity|].
  destruct (is_white_space c) eqn:E; [exact IH | simpl; rewrite E; reflexivity].
Qed.

Lemma trim_end_idempotent (s : jsstring) : trim_end (trim_end s) = trim_end s.
Proof.
  unfold trim_end; rewrite rev_involutive, trim_start_idempotent; reflexivity.
Qed.

(** Trimming the start of a sequence that ends in a character that is no
    white space keeps that last character. *)
Lemma trim_start_keeps_last (l : jsstring) (c : N) :
  is_white_space c = false ->
  exists l', trim_start (l ++ [c]) = l' ++ [c].
Proof.
  intros Hc; induction l as [|x l IH]; simpl.
  - rewrite Hc; exists []; reflexivity.
  - destruct (is_white_space x); [exact IH | exists (x :: l); reflexivity].
Qed.

(** Trimming the end leaves a trimmed start alone. *)
Lemma trim_start_trim_end (s : jsstring) :
  trim_start s = s -> trim_start (trim_end s) = trim_end s.
Proof.
  destruct s as [|c r]; [reflexivity|].
  simpl; destruct (is_white_space c) eqn:Hc.
  - intros E; exfalso.
    assert (Hlen : List.length (trim_start r) <= List.length r).
    { clear; induction r as [|x r IH]; simpl; [lia|].
      destruct (is_white_space x); simpl; lia. }
    rewrite E in Hlen; simpl in Hlen; lia.
  - intros _; unfold trim_end; simpl rev.
    destruct (trim_start_keeps_last (rev r) c Hc) as [l' ->].
    rewrite rev_app_distr; simpl; rewrite Hc; reflexivity.
Qed.

Lemma trim_idempotent (s : jsstring) : trim (trim s) = trim s.
Proof.
  unfold trim.
  rewrite (trim_start_trim_end (trim_start s) (trim_start_idempotent s)).
  apply trim_end_idempotent.
Qed.

(** The conversion to a number skips the white space that [trim] removes. *)
Lemma StringToNumber_trim (s : jsstring) :
  StringToNumber (trim s) = StringToNumber s.
Proof. unfold StringToNumber; rewrite trim_idempotent; reflexivity. Qed.

(** ** The tag-based [isObject] of [part_001] *)

Lemma Part001_isObject_plain_keyed_record (v : value) :
  Part001.isObject v = Normal true <-> plain_keyed_record v.
Proof.
  unfold plain_keyed_record.
  destruct v as [| | b | n | s | d | z | [c own inh]];
    try (split; [discriminate | intros (o & E & _); discriminate]).
  destruct c as [| es | k | t | | n | n | | k | b | n | s];
    try destruct k;
    try (split; [discriminate | intros (o & E & Ha & Hk); inversion E; subst o;
                                simpl in *; discriminate]).
  split; [intros _ | reflexivity].
  eexists; repeat split.
Qed.

Lemma Part001_isObject_total (v : value) :
  exists b, Part001.isObject v = Normal b.
Proof. eexists; reflexivity. Qed.

(** The checker of [src/index.ts]: every non-null, non-array value whose
    [typeof] is "object". *)
Lemma Index_isObject_characterization (v : value) :
  Index.isObject v = Normal true <->
  exists c own inh, v = VObject (Obj c own inh)
                    /\ typeof v = T_object /\ Array_isArray v = false.
Proof.
  destruct v as [| | b | n | s | d | z | [c own inh]];
    try (split; [discriminate | intros (c0 & o0 & i0 & E & _); discriminate]).
  destruct c;
    try (split; [discriminate
                | intros (c0 & o0 & i0 & E & Ht & Ha); simpl in *; discriminate]);
    (split; [intros _; do 3 eexists; repeat split | reflexivity]).
Qed.

(** C1. The claim holds of the tag-based [isObject] of [part_001] on every
    value: it returns true exactly on the plain keyed records, so false on
    [null], on every array, Date, RegExp, Map, Set and function, and true on
    [{}].  The [isObject] of [src/index.ts] breaks it: it returns true on a
    Date (of any time value), which is no plain keyed record. *)
Theorem isObject_index_accepts_Date :
  (forall v, Part001.isObject v = Normal true <-> plain_keyed_record v)
  /\ Part001.isObject VNull = Normal false
  /\ (forall es own inh,
         Part001.isObject (VObject (Obj (CArray es) own inh)) = Normal false)
  /\ (forall t own inh,
         Part001.isObject (VObject (Obj (CDate t) own inh)) = Normal false)
  /\ (forall k own inh,
         Part001.isObject (VObject (Obj (CFunction k) own inh)) = Normal false)
  /\ (forall own inh,
         Part001.isObject (VObject (Obj CRegExp own inh)) = Normal false)
  /\ (forall n own inh,
         Part001.isObject (VObject (Obj (CMap n) own inh)) = Normal false)
  /\ (forall n own inh,
         Part001.isObject (VObject (Obj (CSet n) own inh)) = Normal false)
  /\ Part001.isObject empty_object = Normal true
  /\ (forall t own inh,
         Index.isObject (VObject (Obj (CDate t) own inh)) = Normal true
         /\ ~ plain_keyed_record (VObject (Obj (CDate t) own inh)))
  /\ Index.isObject epoch_date = Normal true.
Proof.
  split; [exact Part001_isObject_plain_keyed_record|].
  repeat split; try reflexivity; try (destruct k; reflexivity).
  intros (o & E & _ & Hk); inversion E; subst o; discriminate.
Qed.

(** ** [isEmpty] and [isNotEmpty] *)

Lemma Part001_isEmpty_whitespace (s : jsstring) :
  whitespace_only s -> Part001.isEmpty (VString s) = Normal true.
Proof.
  intros Hs; unfold Part001.isEmpty; simpl.
  rewrite (trim_whitespace_only s Hs); reflexivity.
Qed.

(** Step 6 of the dispatch: anything that is not nullish, not a string, not
    an array, not a Map or Set and not a plain object is not empty. *)
Lemma Part001_isEmpty_anything_else (v : value) :
  loosely_null v = false ->
  typeof v <> T_string ->
  Array_isArray v = false ->
  instanceof v Map_ = false ->
  instanceof v Set_ = false ->
  ~ plain_keyed_record v ->
  Part001.isEmpty v = Normal false.
Proof.
  intros Hn Hs Ha Hm Hset Hp.
  destruct v as [| | b | n | s | d | z | [c own inh]];
    try discriminate; try reflexivity; try (exfalso; apply Hs; reflexivity).
  destruct c as [| es | k | t | | n | n | | k | b | n | s];
    try discriminate; try reflexivity; try (destruct k; reflexivity).
  exfalso; apply Hp; eexists; repeat split.
Qed.

(** The kinds the specification lists under "anything else". *)
Lemma Part001_isEmpty_listed_kinds :
  (forall n, Part001.isEmpty (VNumber n) = Normal false)
  /\ (forall b, Part001.isEmpty (VBoolean b) = Normal false)
  /\ (forall d, Part001.isEmpty (VSymbol d) = Normal false)
  /\ (forall z, Part001.isEmpty (VBigInt z) = Normal false)
  /\ (forall k own inh,
         Part001.isEmpty (VObject (Obj (CFunction k) own inh)) = Normal false)
  /\ (forall t own inh,
         Part001.isEmpty (VObject (Obj (CDate t) own inh)) = Normal false)
  /\ (forall own inh,
         Part001.isEmpty (VObject (Obj CRegExp own inh)) = Normal false).
Proof. repeat split; destruct k; reflexivity. Qed.

Lemma Part001_isEmpty_examples :
  Part001.isEmpty VNull = Normal true
  /\ Part001.isEmpty VUndefined = Normal true
  /\ Part001.isEmpty (VString []) = Normal true
  /\ Part001.isEmpty three_spaces = Normal true
  /\ Part001.isEmpty empty_array = Normal true
  /\ Part001.isEmpty empty_object = Normal true
  /\ Part001.isEmpty array_1 = Normal false
  /\ Part001.isEmpty object_a_1 = Normal false.
Proof. repeat split. Qed.

(** C2. The claim holds of the [isEmpty] of [part_001]: the eight listed
    results, every white-space-only string, and false on every value that is
    not nullish, not a string, not an array, not a Map or Set and not a plain
    object.  The [isEmpty] of [src/index.ts] breaks it twice: it compares the
    length of a string without trimming, so a white-space-only string is not
    empty, and it counts the keys of every value of type "object", so a Date
    is empty. *)
Theorem isEmpty_index_whitespace_and_Date :
  (Part001.isEmpty VNull = Normal true
   /\ Part001.isEmpty VUndefined = Normal true
   /\ Part001.isEmpty (VString []) = Normal true
   /\ (forall s, whitespace_only s -> Part001.isEmpty (VString s) = Normal true)
   /\ Part001.isEmpty empty_array = Normal true
   /\ Part001.isEmpty empty_object = Normal true
   /\ Part001.isEmpty array_1 = Normal false
   /\ Part001.isEmpty object_a_1 = Normal false
   /\ (forall v, loosely_null v = false -> typeof v <> T_string ->
                 Array_isArray v = false -> instanceof v Map_ = false ->
                 instanceof v Set_ = false -> ~ plain_keyed_record v ->
                 Part001.isEmpty v = Normal false))
  /\ (whitespace_only (str "   ")
      /\ Index.isEmpty three_spaces = Normal false)
  /\ (loosely_null epoch_date = false /\ typeof epoch_date <> T_string
      /\ Array_isArray epoch_date = false /\ instanceof epoch_date Map_ = false
      /\ instanceof epoch_date Set_ = false /\ ~ plain_keyed_record epoch_date
      /\ Index.isEmpty epoch_date = Normal true).
Proof.
  split; [|split].
  - repeat split.
    + exact Part001_isEmpty_whitespace.
    + exact Part001_isEmpty_anything_else.
  - split; reflexivity.
  - repeat split; try discriminate.
    intros (o & E & _ & Hk); inversion E; subst o; discriminate.
Qed.

(** C9. The two implementations of [isEmpty] are not extensionally equal:
    on the string of three spaces the one of [src/index.ts] returns false
    and the one of [part_001] returns true. *)
Theorem isEmpty_implementations_differ :
  exists v : value,
    Index.isEmpty v <> Part001.isEmpty v
    /\ Index.isEmpty v = Normal false
    /\ Part001.isEmpty v = Normal true.
Proof.
  exists three_spaces; repeat split; discriminate.
Qed.

(** C3. [isNotEmpty] is the negation of [isEmpty] on every value: it returns
    [negb b] exactly when [isEmpty] returns [b], and it raises exactly what
    [isEmpty] raises. *)
Theorem isNotEmpty_negates_isEmpty (v : value) :
  (forall b, Part001.isNotEmpty v = Normal (negb b)
             <-> Part001.isEmpty v = Normal b)
  /\ (forall e, Part001.isNotEmpty v = Throw e
                <-> Part001.isEmpty v = Throw e).
Proof.
  unfold Part001.isNotEmpty.
  destruct (Part001.isEmpty v) as [b0|e0]; simpl; split.
  - intros b; split; intros E; inversion E as [E'].
    + f_equal; destruct b0, b; simpl in *; congruence.
    + reflexivity.
  - intros e; split; discriminate.
  - intros b; split; discriminate.
  - intros e; split; intros E; inversion E; reflexivity.
Qed.

(** ** [isNumeric] *)

Lemma Part001_isNumeric_numeric_value (v : value) :
  Part001.isNumeric v = Normal true <-> numeric_value v.
Proof.
  unfold numeric_value.
  destruct v as [| | b | n | s | d | z | o]; simpl;
    try (split; [discriminate
                | intros [(n0 & E & _) | (s0 & E & _)]; discriminate]).
  - split.
    + intros E; left; exists n; split; [reflexivity | congruence].
    + intros [(n0 & E & Hf) | (s0 & E & _)]; [|discriminate].
      inversion E; subst n0; rewrite Hf; reflexivity.
  - split.
    + intros E; right; exists s; split; [reflexivity|].
      assert (Hb : negb (jsstring_eqb (trim s) [])
                   && Number_isFinite (StringToNumber (trim s)) = true)
        by congruence.
      apply andb_true_iff in Hb; destruct Hb as [Hne Hf].
      split; [|exact Hf].
      intros Hnil; rewrite Hnil in Hne; discriminate.
    + intros [(n0 & E & _) | (s0 & E & Hne & Hf)]; [discriminate|].
      inversion E; subst s0; rewrite Hf.
      destruct (trim s); [congruence | reflexivity].
Qed.

Lemma Index_isNumeric_agrees (v : value) :
  Index.isNumeric v = Part001.isNumeric v.
Proof.
  destruct v as [| | b | n | s | d | z | o]; try reflexivity.
  unfold Index.isNumeric, Part001.isNumeric.
  rewrite StringToNumber_trim.
  destruct (jsstring_eqb (trim s) []); reflexivity.
Qed.

(** C4. [isNumeric] (in both implementations, which agree on every value)
    always returns, and returns true exactly on the finite numbers and on the
    strings whose trimmed form is non-empty and converts to a finite number;
    so it accepts "123" and "12.5e2" and rejects "abc", Infinity and NaN. *)
Theorem isNumeric_finite_number_or_numeric_string :
  (forall v, Part001.isNumeric v = Normal true <-> numeric_value v)
  /\ (forall v, exists b, Part001.isNumeric v = Normal b)
  /\ (forall v, Index.isNumeric v = Part001.isNumeric v)
  /\ Part001.isNumeric (VString (str "123")) = Normal true
  /\ Part001.isNumeric (VString (str "12.5e2")) = Normal true
  /\ Part001.isNumeric (VString (str "abc")) = Normal false
  /\ Part001.isNumeric (VNumber Infinity) = Normal false
  /\ Part001.isNumeric (VNumber NaN) = Normal false.
Proof.
  split; [exact Part001_isNumeric_numeric_value|].
  split; [intros v; destruct v; eexists; reflexivity|].
  split; [exact Index_isNumeric_agrees|].
  repeat split; vm_compute; reflexivity.
Qed.

(** ** [isPromise] *)

Lemma type_name_eqb_eq (a b : type_name) : type_name_eqb a b = true <-> a = b.
Proof. destruct a, b; simpl; split; congruence. Qed.

Lemma Part001_isPromise_function (k : function_kind)
      (own inh : list (jsstring * property)) :
  Part001.isPromise (VObject (Obj (CFunction k) own inh)) = Normal false.
Proof. reflexivity. Qed.

Lemma Part001_isPromise_characterization (v : value) :
  Part001.isPromise v = Normal true <->
  instanceof v Promise_ = true \/ thenable_object v.
Proof.
  unfold thenable_object.
  destruct v as [| | b | n | s | d | z | [c own inh]];
    try (split; [discriminate
                | intros [E | (Ht & Hn & _)];
                  try discriminate; try congruence]).
  destruct c;
    try (split; [intros _; left; reflexivity | reflexivity]);
    try (split; [discriminate
                | intros [E | (Ht & _)]; discriminate]);
    (unfold Part001.isPromise; simpl instanceof; simpl typeof; cbv iota;
     simpl type_name_eqb; cbv iota;
     destruct (GetV _ (str "then")) as [t|e] eqn:G; simpl;
     [ split;
       [ intros E; right; repeat split; try discriminate;
         exists t; split; [reflexivity | apply type_name_eqb_eq; congruence]
       | intros [E | (_ & _ & t' & Et & Hf)]; [discriminate|];
         inversion Et; subst t'; rewrite Hf; reflexivity ]
     | split; [discriminate
              | intros [E | (_ & _ & t' & Et & _)]; discriminate ] ]).
Qed.

(** C5, the claim as stated fails: a function whose [then] member is
    callable is not accepted. *)
Lemma isPromise_rejects_function_with_then :
  typeof function_with_then = T_function
  /\ (exists t, GetV function_with_then (str "then") = Normal t
                /\ typeof t = T_function)
  /\ Part001.isPromise function_with_then = Normal false.
Proof.
  split; [reflexivity|]; split; [|reflexivity].
  eexists; split; reflexivity.
Qed.

(** C5, amended.  [isPromise] returns true exactly on the instances of
    Promise and on the non-null values of type "object" whose [then] member
    is callable; a function is never accepted on account of its [then]
    member: on every function that is no Promise instance it returns
    false. *)
Theorem isPromise_promise_or_thenable_object :
  (forall v, Part001.isPromise v = Normal true <->
             instanceof v Promise_ = true \/ thenable_object v)
  /\ (forall k own inh,
         Part001.isPromise (VObject (Obj (CFunction k) own inh)) = Normal false).
Proof.
  split; [exact Part001_isPromise_characterization
         | exact Part001_isPromise_function].
Qed.

(** ** Which guards can raise *)


Lemma redefines_false (o : object) (k : jsstring) :
  redefines (VObject o) k = false <-> shadowing_member o k = None.
Proof.
  simpl; destruct (shadowing_member o k); split; congruence.
Qed.

(** On a Date that does not redefine [getTime], the call returns the time
    value, and [isDate] tells whether it is NaN. *)
Lemma Date_getTime_builtin (H : host) (t : number)
      (own inh : list (jsstring * property)) :
  redefines (VObject (Obj (CDate t) own inh)) (str "getTime") = false ->
  Date_getTime H (VObject (Obj (CDate t) own inh)) = Normal (VNumber t).
Proof.
  intros Hr; apply redefines_false in Hr.
  unfold Date_getTime; rewrite Hr; reflexivity.
Qed.

Lemma Part001_isDate_builtin (H : host) (t : number)
      (own inh : list (jsstring * property)) :
  redefines (VObject (Obj (CDate t) own inh)) (str "getTime") = false ->
  Part001.isDate H (VObject (Obj (CDate t) own inh))
  = Normal (negb (Number_isNaN t)).
Proof.
  intros Hr; unfold Part001.isDate; simpl instanceof; cbv iota.
  rewrite (Date_getTime_builtin H t own inh Hr); reflexivity.
Qed.

Lemma Part001_isDate_Date (H : host) (v : value) :
  Part001.isDate H v = Normal true ->
  exists t own inh, v = VObject (Obj (CDate t) own inh).
Proof.
  destruct v as [| | b | n | s | d | z | [c own inh]]; try discriminate.
  destruct c; try discriminate; eauto.
Qed.

Lemma Part001_isNonEmptyObject_total (v : value) :
  exists b, Part001.isNonEmptyObject v = Normal b.
Proof.
  destruct v as [| | b | n | s | d | z | [c own inh]];
    try (eexists; reflexivity).
  destruct c as [| es | k | t | | n | n | | k | b | n | s];
    try destruct k; eexists; reflexivity.
Qed.

Lemma Part001_getType_total (v : value) :
  exists t, Part001.getType v = Normal t.
Proof.
  destruct v as [| | b | n | s | d | z | [c own inh]];
    try (eexists; reflexivity).
  destruct c; eexists; reflexivity.
Qed.

(** The guards of [part_001] that return on every value of the model: those
    that only inspect the type, the class or the text of the value, and those
    that catch what the host raises.  The guards that read or call a member
    of the value ([isAsyncFunction], [isPromise], [isEmpty], [isDate],
    [isArrayOf] and its two instances) are not among them. *)
Lemma Part001_guards_that_never_raise (H : host) (v : value) :
  (exists b, Part001.isNumeric v = Normal b)
  /\ (exists b, Part001.isString v = Normal b)
  /\ (exists b, Part001.isNonEmptyString v = Normal b)
  /\ (exists b, Part001.isBoolean v = Normal b)
  /\ (exists b, Part001.isNumber v = Normal b)
  /\ (exists b, Part001.isInteger v = Normal b)
  /\ (exists b, Part001.isPositiveNumber v = Normal b)
  /\ (exists b, Part001.isBigInt v = Normal b)
  /\ (exists b, Part001.isSymbol v = Normal b)
  /\ (exists b, Part001.isArray v = Normal b)
  /\ (exists b, Part001.isNonEmptyArray v = Normal b)
  /\ (exists b, Part001.isObject v = Normal b)
  /\ (exists b, Part001.isNonEmptyObject v = Normal b)
  /\ (exists b, Part001.isRegExp v = Normal b)
  /\ (exists b, Part001.isMap v = Normal b)
  /\ (exists b, Part001.isSet v = Normal b)
  /\ (exists b, Part001.isFunction v = Normal b)
  /\ (exists b, Part001.isNull v = Normal b)
  /\ (exists b, Part001.isUndefined v = Normal b)
  /\ (exists b, Part001.isNullish v = Normal b)
  /\ (exists b, Part001.isDefined v = Normal b)
  /\ (exists b, Part001.isUrl H v = Normal b)
  /\ (exists b, Part001.isEmail v = Normal b)
  /\ (exists b, Part001.isUuid v = Normal b)
  /\ (exists b, Part001.isPrimitive v = Normal b)
  /\ (exists b, Part001.isJsonSerializable H v = Normal b)
  /\ (exists t, Part001.getType v = Normal t).
Proof.
  repeat split;
    try (eexists; reflexivity);
    try apply Part001_isNonEmptyObject_total;
    try apply Part001_getType_total;
    try (destruct v; eexists; reflexivity).
  - destruct v as [| | b | n | s | d | z | [c own inh]];
      try (eexists; reflexivity).
    destruct c; eexists; reflexivity.
  - destruct v as [| | b | n | s | d | z | o]; try (eexists; reflexivity).
    unfold Part001.isUrl; destruct (URL_new H s); eexists; reflexivity.
  - unfold Part001.isJsonSerializable.
    destruct (JSON_stringify H v); eexists; reflexivity.
Qed.

(** Every guard of [src/index.ts] other than [isDate], which calls a member
    of the value outside any [try], returns on every value of the model. *)
Lemma Index_guards_never_raise (v : value) :
  (exists b, Index.isNumeric v = Normal b)
  /\ (exists b, Index.isString v = Normal b)
  /\ (exists b, Index.isBoolean v = Normal b)
  /\ (exists b, Index.isArray v = Normal b)
  /\ (exists b, Index.isObject v = Normal b)
  /\ (exists b, Index.isFunction v = Normal b)
  /\ (exists b, Index.isNull v = Normal b)
  /\ (exists b, Index.isUndefined v = Normal b)
  /\ (exists b, Index.isEmpty v = Normal b).
Proof.
  repeat split; try (eexists; reflexivity).
  - rewrite Index_isNumeric_agrees; destruct v; eexists; reflexivity.
  - unfold Index.isEmpty, try_fallthrough.
    match goal with
    | |- exists b, match ?body with _ => _ end = _ => destruct body as [[b|]|e]
    end; eexists; reflexivity.
Qed.

(** [isAsyncFunction] raises only when reading [constructor] from the
    function, or [name] from that constructor, raises. *)
Lemma Part001_isAsyncFunction_raises (v e : value) :
  Part001.isAsyncFunction v = Throw e ->
  typeof v = T_function
  /\ (GetV v (str "constructor") = Throw e
      \/ exists c, GetV v (str "constructor") = Normal c
                   /\ GetV c (str "name") = Throw e).
Proof.
  unfold Part001.isAsyncFunction.
  destruct (type_name_eqb (typeof v) T_function) eqn:Ht; [|discriminate].
  apply type_name_eqb_eq in Ht; intros E; split; [exact Ht|].
  destruct (GetV v (str "constructor")) as [c|e0]; unfold bind in E.
  - right; exists c; split; [reflexivity|].
    destruct (GetV c (str "name")) as [n|e1]; [discriminate | congruence].
  - left; congruence.
Qed.

(** [isEmpty] of [part_001] raises only when reading [size] from a Map or a
    Set raises. *)
Lemma Part001_isEmpty_raises (v e : value) :
  Part001.isEmpty v = Throw e ->
  (instanceof v Map_ = true \/ instanceof v Set_ = true)
  /\ GetV v (str "size") = Throw e.
Proof.
  destruct v as [| | b | n | s | d | z | [c own inh]]; try discriminate.
  destruct c as [| es | k | t | | n | n | | k | b | n | s];
    try destruct k; try discriminate;
    unfold Part001.isEmpty; simpl loosely_null; cbv iota;
    simpl instanceof; simpl orb; cbv iota;
    (destruct (GetV _ (str "size")) as [x|e0]; simpl; [discriminate|]);
    intros E; inversion E; subst; auto.
Qed.

(** [isPromise] raises only when reading [then] from an object raises. *)
Lemma Part001_isPromise_raises (v e : value) :
  Part001.isPromise v = Throw e ->
  typeof v = T_object /\ GetV v (str "then") = Throw e.
Proof.
  destruct v as [| | b | n | s | d | z | [c own inh]]; try discriminate.
  destruct c; try discriminate;
    unfold Part001.isPromise; simpl instanceof; simpl typeof; cbv iota;
    simpl type_name_eqb; cbv iota;
    (destruct (GetV _ (str "then")) as [x|e0]; simpl; [discriminate|]);
    intros E; inversion E; subst; auto.
Qed.

(** C6. The claim is broken by [isAsyncFunction]: on a function whose
    [constructor] property is [null] it reads [name] from [null], and the
    TypeError of the host escapes to the caller.  The [isEmpty] of
    [part_001] lets the error of a raising [size] accessor escape too, where
    the [isEmpty] of [src/index.ts] catches it and returns false. *)
Theorem isAsyncFunction_raises_on_null_constructor :
  typeof function_with_null_constructor = T_function
  /\ Part001.isAsyncFunction function_with_null_constructor
     = Throw host_TypeError
  /\ Part001.isEmpty map_with_raising_size
     = Throw (error_object ErrorKind (Some (str "no")))
  /\ Index.isEmpty map_with_raising_size = Normal false.
Proof. repeat split. Qed.

(** ** [assertType] *)

(** C7, the claim as stated fails: the empty string is a message the caller
    supplied, yet the error raised carries the default message. *)
Lemma assertType_empty_message_replaced :
  Part001.isString (VBoolean true) = Normal false
  /\ Part001.assertType sample_host (VBoolean true) Part001.isString (Some [])
     = Throw (error_object TypeErrorKind
                (Some (str "Type assertion failed for value: true")))
  /\ Part001.assertType sample_host (VBoolean true) Part001.isString (Some [])
     <> Throw (error_object TypeErrorKind (Some [])).
Proof. repeat split; discriminate. Qed.

(** C7, amended.  [assertType] returns with no effect iff the predicate
    returns true on the value; if the predicate raises, what it raises
    propagates; so whenever the predicate returns, [assertType] raises iff it
    returned false.  When the predicate returns false, the TypeError raised
    carries the message of the caller when one was given and is not the
    empty string; with no message, or with the empty string, it carries the
    default message, the text "Type assertion failed for value: " followed
    by the string conversion of the value; and if that conversion raises,
    what it raises is raised in place of the TypeError. *)
Theorem assertType_raises_iff_predicate_false
        (H : host) (v : value) (p : predicate) (message : option jsstring) :
  (Part001.assertType H v p message = Normal tt <-> p v = Normal true)
  /\ (forall b, p v = Normal b ->
        ((exists e, Part001.assertType H v p message = Throw e)
         <-> b = false))
  /\ (forall e, p v = Throw e -> Part001.assertType H v p message = Throw e)
  /\ (forall m, p v = Normal false -> message = Some m -> m <> [] ->
                Part001.assertType H v p message
                = Throw (error_object TypeErrorKind (Some m)))
  /\ (forall r, p v = Normal false ->
                message = None \/ message = Some [] ->
                ToString H v = Normal r ->
                Part001.assertType H v p message
                = Throw (error_object TypeErrorKind
                           (Some (Part001.default_message_prefix ++ r))))
  /\ (forall e, p v = Normal false ->
                message = None \/ message = Some [] ->
                ToString H v = Throw e ->
                Part001.assertType H v p message = Throw e).
Proof.
  unfold Part001.assertType.
  destruct (p v) as [[|]|e0]; simpl.
  - repeat split; try discriminate; try congruence.
    intros (e & E); discriminate E.
  - split; [split; [|discriminate]|].
    { destruct (Part001.assertion_message H v message); discriminate. }
    split; [|split; [discriminate|split; [|split]]].
    + intros b E; inversion E; subst b; split; [reflexivity | intros _].
      destruct (Part001.assertion_message H v message); eexists; reflexivity.
    + intros m _ -> Hm; destruct m; [congruence | reflexivity].
    + intros r _ [-> | ->] Hr; simpl; rewrite Hr; reflexivity.
    + intros e _ [-> | ->] He; simpl; rewrite He; reflexivity.
  - repeat split; try discriminate; try congruence.
Qed.

Lemma assertType_raises_iff_predicate_false_witness :
  Part001.isString (VBoolean true) = Normal false
  /\ raising_predicate (VBoolean true) = Throw (error_object ErrorKind None)
  /\ Part001.assertType sample_host (VBoolean true) Part001.isString None
     = Throw (error_object TypeErrorKind
                (Some (Part001.default_message_prefix ++ str "true")))
  /\ Part001.assertType sample_host (VBoolean true) raising_predicate None
     = Throw (error_object ErrorKind None).
Proof.
  split; [reflexivity|]; split; [reflexivity|]; split.
  - apply (proj1 (proj2 (proj2 (proj2 (proj2
             (assertType_raises_iff_predicate_false
                sample_host (VBoolean true) Part001.isString None)))))
                 (str "true") eq_refl (or_introl eq_refl) eq_refl).
  - apply (proj1 (proj2 (proj2
             (assertType_raises_iff_predicate_false
                sample_host (VBoolean true) raising_predicate None)))
                 (error_object ErrorKind None) eq_refl).
Defined.

(** ** [isJsonSerializable] *)

(** C10. For [undefined] and for every symbol the serializer yields
    [undefined] without raising, and [isJsonSerializable] returns true; it
    returns true exactly when the serializer does not raise, whether or not
    text was produced. *)
Theorem isJsonSerializable_undefined_and_symbols (H : host) :
  JSON_stringify H VUndefined = Normal json_undefined
  /\ Part001.isJsonSerializable H VUndefined = Normal true
  /\ (forall d, JSON_stringify H (VSymbol d) = Normal json_undefined)
  /\ (forall d, Part001.isJsonSerializable H (VSymbol d) = Normal true)
  /\ (forall v, Part001.isJsonSerializable H v = Normal true
                <-> exists out, JSON_stringify H v = Normal out)
  /\ (forall v, Part001.isJsonSerializable H v = Normal false
                <-> exists e, JSON_stringify H v = Throw e).
Proof.
  repeat split; unfold Part001.isJsonSerializable, try_catch.
  - destruct (JSON_stringify H v) as [out|e]; simpl;
      [eexists; reflexivity | discriminate].
  - intros (out & ->); reflexivity.
  - destruct (JSON_stringify H v) as [out|e]; simpl;
      [discriminate | eexists; reflexivity].
  - intros (e & ->); reflexivity.
Qed.

(** ** Regular expressions: the matcher decides the language *)

Lemma lang_Cat_inv (r1 r2 : regex) (s : jsstring) :
  lang (Cat r1 r2) s <->
  exists s1 s2, s = s1 ++ s2 /\ lang r1 s1 /\ lang r2 s2.
Proof.
  split.
  - intros L; inversion L; subst; eauto.
  - intros (s1 & s2 & -> & L1 & L2); constructor; assumption.
Qed.

Lemma lang_Class_inv (p : N -> bool) (s : jsstring) :
  lang (Class p) s <-> exists c, s = [c] /\ p c = true.
Proof.
  split.
  - intros L; inversion L; subst; eauto.
  - intros (c & -> & Hp); constructor; exact Hp.
Qed.

Lemma lang_Alt_inv (r1 r2 : regex) (s : jsstring) :
  lang (Alt r1 r2) s <-> lang r1 s \/ lang r2 s.
Proof.
  split.
  - intros L; inversion L; subst; auto.
  - intros [L|L]; [apply lang_Alt_l | apply lang_Alt_r]; exact L.
Qed.

Lemma nullable_lang (r : regex) : nullable r = true <-> lang r [].
Proof.
  induction r as [| | p | r1 IH1 r2 IH2 | r1 IH1 r2 IH2 | r IH]; simpl.
  - split; [discriminate | intros L; inversion L].
  - split; [constructor | reflexivity].
  - split; [discriminate | intros L; inversion L].
  - rewrite andb_true_iff, IH1, IH2, lang_Cat_inv; split.
    + intros [L1 L2]; exists [], []; auto.
    + intros (s1 & s2 & E & L1 & L2); symmetry in E.
      destruct (app_eq_nil _ _ E) as [-> ->]; auto.
  - rewrite orb_true_iff, IH1, IH2, lang_Alt_inv; reflexivity.
  - split; [constructor | reflexivity].
Qed.

(** A non-empty word of a starred expression starts with a non-empty word
    of the expression. *)
Lemma lang_Star_cons_inv (r : regex) (c : N) (s : jsstring) :
  lang (Star r) (c :: s) ->
  exists s1 s2, s = s1 ++ s2 /\ lang r (c :: s1) /\ lang (Star r) s2.
Proof.
  intros L.
  remember (Star r) as r' eqn:Er; remember (c :: s) as w eqn:Ew.
  revert s Ew.
  induction L as [| | | | | |r0 w1 w2 L1 IH1 L2 IH2]; intros t Ew;
    try discriminate.
  inversion Er; subst r0.
  destruct w1 as [|x w1'].
  - simpl in Ew; exact (IH2 Er t Ew).
  - simpl in Ew; inversion Ew; subst.
    exists w1', w2; auto.
Qed.

Lemma derive_lang (c : N) (r : regex) :
  forall s, lang (derive c r) s <-> lang r (c :: s).
Proof.
  induction r as [| | p | r1 IH1 r2 IH2 | r1 IH1 r2 IH2 | r IH];
    intros s; simpl.
  - split; intros L; inversion L.
  - split; intros L; inversion L.
  - rewrite lang_Class_inv.
    destruct (p c) eqn:Hp; split.
    + intros L; inversion L; subst; exists c; auto.
    + intros (x & E & _); inversion E; subst; constructor.
    + intros L; inversion L.
    + intros (x & E & Hx); inversion E; subst; congruence.
  - assert (Hcat : lang (Cat (derive c r1) r2) s <->
                   exists s1 s2, s = s1 ++ s2
                                 /\ lang r1 (c :: s1) /\ lang r2 s2).
    { rewrite lang_Cat_inv; split; intros (s1 & s2 & E & L1 & L2);
        exists s1, s2; repeat split; auto; apply IH1; exact L1. }
    assert (Hinv : lang (Cat r1 r2) (c :: s) <->
                   (exists s1 s2, s = s1 ++ s2
                                  /\ lang r1 (c :: s1) /\ lang r2 s2)
                   \/ (lang r1 [] /\ lang r2 (c :: s))).
    { rewrite lang_Cat_inv; split.
      - intros (s1 & s2 & E & L1 & L2); destruct s1 as [|x s1'].
        + right; simpl in E; subst; auto.
        + left; simpl in E; inversion E; subst; eauto.
      - intros [(s1 & s2 & -> & L1 & L2) | [L1 L2]].
        + exists (c :: s1), s2; auto.
        + exists [], (c :: s); auto. }
    rewrite Hinv, <- Hcat.
    destruct (nullable r1) eqn:Hn.
    + rewrite lang_Alt_inv, IH2.
      apply nullable_lang in Hn; tauto.
    + split; [auto | intros [L|[L1 _]]; [exact L|]].
      apply nullable_lang in L1; congruence.
  - rewrite !lang_Alt_inv, IH1, IH2; reflexivity.
  - rewrite lang_Cat_inv; split.
    + intros (s1 & s2 & -> & L1 & L2).
      apply IH in L1; exact (lang_Star_cons r (c :: s1) s2 L1 L2).
    + intros L; destruct (lang_Star_cons_inv r c s L) as (s1 & s2 & -> & L1 & L2).
      exists s1, s2; repeat split; [apply IH; exact L1 | exact L2].
Qed.

Lemma matches_lang (r : regex) (s : jsstring) :
  matches r s = true <-> lang r s.
Proof.
  revert r; induction s as [|c s IH]; intros r; simpl.
  - apply nullable_lang.
  - rewrite IH; apply derive_lang.
Qed.

Lemma lang_Char_inv (c : N) (s : jsstring) : lang (Char c) s <-> s = [c].
Proof.
  unfold Char; rewrite lang_Class_inv; split.
  - intros (x & -> & E); apply N.eqb_eq in E; subst; reflexivity.
  - intros ->; exists c; split; [reflexivity | apply N.eqb_refl].
Qed.

Lemma lang_Repeat_Class (n : nat) (p : N -> bool) (s : jsstring) :
  lang (Repeat n (Class p)) s <-> List.length s = n /\ forallb p s = true.
Proof.
  revert s; induction n as [|n IH]; intros s; simpl.
  - split.
    + intros L; inversion L; subst; auto.
    + intros [E _]; destruct s; [constructor | discriminate].
  - rewrite lang_Cat_inv; split.
    + intros (s1 & s2 & -> & L1 & L2).
      apply lang_Class_inv in L1; destruct L1 as (c & -> & Hp).
      apply IH in L2; destruct L2 as [El Hf]; simpl.
      rewrite Hp, Hf, El; auto.
    + intros [El Hf]; destruct s as [|c s]; [discriminate|].
      simpl in *; apply andb_true_iff in Hf; destruct Hf as [Hp Hf].
      exists [c], s; repeat split.
      * constructor; exact Hp.
      * apply IH; split; [lia | exact Hf].
Qed.

(** ** The character classes of the UUID pattern *)

Lemma code_unit_ranges (c : N) :
  (c < 48 \/ (48 <= c <= 57) \/ (57 < c < 65) \/ (65 <= c <= 70)
   \/ (70 < c <= 90) \/ (90 < c < 97) \/ (97 <= c <= 102)
   \/ (102 < c <= 122) \/ 122 < c)%N.
Proof. lia. Qed.

Lemma hex_class_hex_digit (c : N) : Part001.hex_class c = hex_digit c.
Proof.
  unfold Part001.hex_class, ignore_case, canonicalize, hex_digit, between.
  destruct (code_unit_ranges c) as [R|[R|[R|[R|[R|[R|[R|[R|R]]]]]]]];
    settle_comparisons; reflexivity.
Qed.

Lemma version_class_digit (c : N) :
  Part001.version_class c = between 49 53 c.
Proof.
  unfold Part001.version_class, ignore_case, canonicalize, between.
  destruct (code_unit_ranges c) as [R|[R|[R|[R|[R|[R|[R|[R|R]]]]]]]];
    settle_comparisons; try reflexivity;
    destruct (N.leb_spec 49 c), (N.leb_spec c 53); reflexivity.
Qed.

Lemma variant_class_members (c : N) :
  Part001.variant_class c = true <-> In c [56; 57; 97; 98; 65; 66]%N.
Proof.
  simpl In.
  destruct (N.eq_dec c 56) as [->|N1]; [split; [auto | reflexivity]|].
  destruct (N.eq_dec c 57) as [->|N2]; [split; [auto | reflexivity]|].
  destruct (N.eq_dec c 97) as [->|N3]; [split; [auto | reflexivity]|].
  destruct (N.eq_dec c 98) as [->|N4]; [split; [auto 6 | reflexivity]|].
  destruct (N.eq_dec c 65) as [->|N5]; [split; [auto 6 | reflexivity]|].
  destruct (N.eq_dec c 66) as [->|N6]; [split; [auto 7 | reflexivity]|].
  split; [|intros [E|[E|[E|[E|[E|[E|[]]]]]]]; congruence].
  unfold Part001.variant_class, ignore_case, canonicalize, between.
  destruct (code_unit_ranges c) as [R|[R|[R|[R|[R|[R|[R|[R|R]]]]]]]];
    settle_comparisons; discriminate.
Qed.

Lemma forallb_hex_class (l : jsstring) :
  forallb Part001.hex_class l = forallb hex_digit l.
Proof.
  induction l as [|c l IH]; simpl; [reflexivity|].
  rewrite hex_class_hex_digit, IH; reflexivity.
Qed.

Lemma lang_Repeat_hex (n : nat) (s : jsstring) :
  lang (Repeat n (Class Part001.hex_class)) s <->
  List.length s = n /\ forallb hex_digit s = true.
Proof. rewrite lang_Repeat_Class, forallb_hex_class; reflexivity. Qed.

(** ** [isUuid] *)

Lemma uuidRegex_layout (s : jsstring) :
  matches Part001.uuidRegex s = true <-> uuid_layout s.
Proof.
  rewrite matches_lang; unfold Part001.uuidRegex, uuid_layout; split.
  - intros L.
    apply lang_Cat_inv in L; destruct L as (g1 & t1 & -> & L1 & L).
    apply lang_Repeat_hex in L1; destruct L1 as [E1 F1].
    apply lang_Cat_inv in L; destruct L as (d1 & t2 & -> & D & L).
    apply lang_Char_inv in D; subst d1.
    apply lang_Cat_inv in L; destruct L as (g2 & t3 & -> & L2 & L).
    apply lang_Repeat_hex in L2; destruct L2 as [E2 F2].
    apply lang_Cat_inv in L; destruct L as (d2 & t4 & -> & D & L).
    apply lang_Char_inv in D; subst d2.
    apply lang_Cat_inv in L; destruct L as (ver & t5 & -> & V & L).
    apply lang_Class_inv in V; destruct V as (version & -> & Hver).
    rewrite version_class_digit in Hver.
    apply lang_Cat_inv in L; destruct L as (g3 & t6 & -> & L3 & L).
    apply lang_Repeat_hex in L3; destruct L3 as [E3 F3].
    apply lang_Cat_inv in L; destruct L as (d3 & t7 & -> & D & L).
    apply lang_Char_inv in D; subst d3.
    apply lang_Cat_inv in L; destruct L as (var & t8 & -> & V & L).
    apply lang_Class_inv in V; destruct V as (variant & -> & Hvar).
    apply variant_class_members in Hvar.
    apply lang_Cat_inv in L; destruct L as (g4 & t9 & -> & L4 & L).
    apply lang_Repeat_hex in L4; destruct L4 as [E4 F4].
    apply lang_Cat_inv in L; destruct L as (d4 & g5 & -> & D & L5).
    apply lang_Char_inv in D; subst d4.
    apply lang_Repeat_hex in L5; destruct L5 as [E5 F5].
    exists g1, g2, version, g3, variant, g4, g5.
    repeat split; assumption.
  - intros (g1 & g2 & version & g3 & variant & g4 & g5 & -> &
            E1 & E2 & E3 & E4 & E5 & F1 & F2 & F3 & F4 & F5 & Hver & Hvar).
    apply lang_Cat; [apply lang_Repeat_hex; auto|].
    apply lang_Cat; [apply lang_Char_inv; reflexivity|].
    apply lang_Cat; [apply lang_Repeat_hex; auto|].
    apply lang_Cat; [apply lang_Char_inv; reflexivity|].
    apply (lang_Cat _ _ [version]);
      [apply lang_Class_inv; exists version; split;
       [reflexivity | rewrite version_class_digit; exact Hver]|].
    apply lang_Cat; [apply lang_Repeat_hex; auto|].
    apply lang_Cat; [apply lang_Char_inv; reflexivity|].
    apply (lang_Cat _ _ [variant]);
      [apply lang_Class_inv; exists variant; split;
       [reflexivity | apply variant_class_members; exact Hvar]|].
    apply lang_Cat; [apply lang_Repeat_hex; auto|].
    apply lang_Cat; [apply lang_Char_inv; reflexivity|].
    apply lang_Repeat_hex; auto.
Qed.

(** C8. [isUuid] returns true exactly on the strings in the canonical
    8-4-4-4-12 hyphenated hexadecimal layout, in either case, whose third
    group starts with a digit in 1-5 and whose fourth group starts with one
    of 8, 9, a, b; it always returns; it accepts
    "123e4567-e89b-12d3-a456-426614174000" and rejects
    "123e4567-e89b-72d3-a456-426614174000". *)
Theorem isUuid_canonical_layout :
  (forall v, Part001.isUuid v = Normal true
             <-> exists s, v = VString s /\ uuid_layout s)
  /\ (forall v, exists b, Part001.isUuid v = Normal b)
  /\ Part001.isUuid (VString (str "123e4567-e89b-12d3-a456-426614174000"))
     = Normal true
  /\ Part001.isUuid (VString (str "123e4567-e89b-72d3-a456-426614174000"))
     = Normal false.
Proof.
  split; [|split; [|split; vm_compute; reflexivity]].
  - intros v; destruct v as [| | b | n | s | d | z | o]; simpl;
      try (split; [discriminate | intros (s0 & E & _); discriminate]).
    split.
    + intros E; exists s; split; [reflexivity|].
      apply uuidRegex_layout; congruence.
    + intros (s0 & E & L); inversion E; subst s0.
      apply uuidRegex_layout in L; rewrite L; reflexivity.
  - intros v; destruct v; eexists; reflexivity.
Qed.

(** ** More about trimming *)

Lemma trim_start_nil_iff (s : jsstring) :
  trim_start s = [] <-> whitespace_only s.
Proof.
  unfold whitespace_only; induction s as [|c s IH]; simpl; [tauto|].
  destruct (is_white_space c); simpl; [exact IH|].
  split; discriminate.
Qed.

Lemma whitespace_only_rev (s : jsstring) :
  whitespace_only (rev s) <-> whitespace_only s.
Proof.
  unfold whitespace_only; rewrite !forallb_forall.
  split; intros Hs c Hc; apply Hs; [apply in_rev in Hc | apply in_rev];
    try rewrite rev_involutive; assumption.
Qed.

Lemma whitespace_only_app (a b : jsstring) :
  whitespace_only (a ++ b) <-> whitespace_only a /\ whitespace_only b.
Proof.
  unfold whitespace_only; rewrite forallb_app, andb_true_iff; reflexivity.
Qed.

Lemma trim_nil_iff (s : jsstring) : trim s = [] <-> whitespace_only s.
Proof.
  split; [|apply trim_whitespace_only].
  unfold trim, trim_end; intros E.
  assert (E' : trim_start (rev (trim_start s)) = []).
  { apply (f_equal (@rev N)) in E; rewrite rev_involutive in E; exact E. }
  apply (proj1 (trim_start_nil_iff _)) in E'.
  apply (proj1 (whitespace_only_rev _)) in E'.
  apply (proj2 (trim_start_nil_iff _)) in E'.
  rewrite trim_start_idempotent in E'.
  apply trim_start_nil_iff; exact E'.
Qed.

Lemma trim_start_skips (w s : jsstring) :
  whitespace_only w -> trim_start (w ++ s) = trim_start s.
Proof.
  unfold whitespace_only; induction w as [|c w IH]; simpl; [reflexivity|].
  rewrite andb_true_iff; intros [-> Hw]; auto.
Qed.

Lemma trim_end_skips (s w : jsstring) :
  whitespace_only w -> trim_end (s ++ w) = trim_end s.
Proof.
  intros Hw; unfold trim_end.
  rewrite rev_app_distr, trim_start_skips; [reflexivity|].
  apply whitespace_only_rev; exact Hw.
Qed.

Lemma trim_start_before_whitespace (s w : jsstring) :
  whitespace_only w ->
  trim_start (s ++ w) = if forallb is_white_space s then []
                        else trim_start s ++ w.
Proof.
  intros Hw; induction s as [|c s IH]; simpl.
  - apply trim_start_nil_iff; exact Hw.
  - destruct (is_white_space c); [exact IH | reflexivity].
Qed.

(** White space around a string does not change what [trim] returns. *)
Lemma trim_surrounding_whitespace (w1 s w2 : jsstring) :
  whitespace_only w1 -> whitespace_only w2 ->
  trim (w1 ++ s ++ w2) = trim s.
Proof.
  intros H1 H2; unfold trim.
  rewrite trim_start_skips by exact H1.
  rewrite trim_start_before_whitespace by exact H2.
  destruct (forallb is_white_space s) eqn:Hs.
  - apply trim_start_nil_iff in Hs; rewrite Hs; reflexivity.
  - apply trim_end_skips; exact H2.
Qed.

(** ** [isNonEmptyString] *)

(** X1. [isNonEmptyString] returns true exactly on the strings that hold a
    character that is no white space, and on a string it is what
    [isNotEmpty] returns. *)
Theorem isNonEmptyString_not_whitespace_only :
  (forall v, Part001.isNonEmptyString v = Normal true
             <-> exists s, v = VString s /\ ~ whitespace_only s)
  /\ (forall s, Part001.isNonEmptyString (VString s)
                = Part001.isNotEmpty (VString s)).
Proof.
  assert (Hlen : forall s, (0 <? List.length (trim s)) = true
                           <-> ~ whitespace_only s).
  { intros s; rewrite <- trim_nil_iff.
    destruct (trim s); simpl; split.
    - discriminate.
    - intros Hn; exfalso; apply Hn; reflexivity.
    - intros _; discriminate.
    - reflexivity. }
  split.
  - intros v; destruct v as [| | b | n | s | d | z | o]; simpl;
      try (split; [discriminate | intros (s0 & E & _); discriminate]).
    split.
    + intros E; exists s; split; [reflexivity|].
      apply Hlen; congruence.
    + intros (s0 & E & Hs); inversion E; subst s0.
      apply Hlen in Hs; rewrite Hs; reflexivity.
  - intros s; unfold Part001.isNotEmpty, Part001.isEmpty; simpl.
    destruct (trim s); reflexivity.
Qed.

(** ** [isNumeric] and white space *)

(** X2. A string of white space only (the empty string included) is not
    numeric, although the host converts it to the finite number 0; and white
    space around a string changes nothing: in both implementations
    [isNumeric] gives the padded string the result of the string itself. *)
Theorem isNumeric_white_space :
  (forall s, whitespace_only s ->
             Number_isFinite (StringToNumber s) = true
             /\ Part001.isNumeric (VString s) = Normal false
             /\ Index.isNumeric (VString s) = Normal false)
  /\ (forall w1 s w2, whitespace_only w1 -> whitespace_only w2 ->
        Part001.isNumeric (VString (w1 ++ s ++ w2))
        = Part001.isNumeric (VString s)
        /\ Index.isNumeric (VString (w1 ++ s ++ w2))
           = Index.isNumeric (VString s)).
Proof.
  split.
  - intros s Hs; rewrite Index_isNumeric_agrees.
    unfold StringToNumber, Part001.isNumeric.
    rewrite (trim_whitespace_only s Hs); repeat split.
  - intros w1 s w2 H1 H2; rewrite !Index_isNumeric_agrees.
    unfold Part001.isNumeric.
    rewrite (trim_surrounding_whitespace w1 s w2 H1 H2); split; reflexivity.
Qed.

Lemma isNumeric_white_space_witness :
  whitespace_only (str " ") /\ whitespace_only [10%N; 8232%N]
  /\ Part001.isNumeric (VString (str " " ++ str "12.5" ++ [10%N; 8232%N]))
     = Part001.isNumeric (VString (str "12.5")).
Proof.
  split; [reflexivity|]; split; [reflexivity|].
  apply (proj2 isNumeric_white_space (str " ") (str "12.5") [10%N; 8232%N]);
    reflexivity.
Defined.

(** ** The number guards *)

(** X3. The number guards are nested: an integer and a positive number are
    finite numbers, and a finite number is numeric.  So [isInteger] and
    [isPositiveNumber] reject NaN and the infinities. *)
Theorem number_guards_nested (v : value) :
  Part001.isInteger v = Normal true \/ Part001.isPositiveNumber v = Normal true ->
  Part001.isNumber v = Normal true
  /\ Part001.isNumeric v = Normal true
  /\ Index.isNumeric v = Normal true
  /\ exists n, v = VNumber n /\ Number_isFinite n = true.
Proof.
  rewrite Index_isNumeric_agrees.
  destruct v as [| | b | n | s | d | z | o]; simpl;
    try (intros [E|E]; discriminate).
  intros [E|E].
  - assert (Hf : Number_isFinite n = true)
      by (destruct n; simpl in *; congruence).
    rewrite Hf; repeat split; exists n; auto.
  - assert (Hf : Number_isFinite n = true).
    { destruct (Number_isFinite n); [reflexivity | discriminate]. }
    rewrite Hf; repeat split; exists n; auto.
Qed.

Lemma number_guards_nested_witness :
  Part001.isInteger (VNumber (number_of_nat 3)) = Normal true
  /\ Part001.isNumber (VNumber (number_of_nat 3)) = Normal true.
Proof.
  split; [reflexivity|].
  apply (number_guards_nested (VNumber (number_of_nat 3))).
  left; reflexivity.
Defined.

(** ** [isArrayOf], [isStringArray], [isNumberArray] *)












(** ** [isOneOf] *)

Lemma Array_some_app (ps qs : list predicate) (v : value) :
  Array_some (ps ++ qs) v
  = (b <- Array_some ps v ;; if b then Normal true else Array_some qs v).
Proof.
  induction ps as [|p ps IH]; simpl; [reflexivity|].
  destruct (p v) as [[|]|e]; simpl; auto.
Qed.

(** X7. The checker [isOneOf] builds returns true exactly when some
    predicate of the list accepts the value and every predicate before it
    returned false; it is false with no predicates; and checkers compose:
    the checker of two lists appended first asks the checker of the first
    list and, only if that returns false, the checker of the second. *)
Theorem isOneOf_first_match (v : value) :
  (forall ps, Part001.isOneOf ps v = Normal true
              <-> exists before p after,
                  ps = before ++ p :: after
                  /\ Forall (fun q => q v = Normal false) before
                  /\ p v = Normal true)
  /\ Part001.isOneOf [] v = Normal false
  /\ (forall ps qs,
         Part001.isOneOf (ps ++ qs) v
         = (b <- Part001.isOneOf ps v ;;
            if b then Normal true else Part001.isOneOf qs v)).
Proof.
  unfold Part001.isOneOf.
  split; [|split; [reflexivity | intros; apply Array_some_app]].
  induction ps as [|p ps IH]; simpl.
  - split; [discriminate|].
    intros (before & q & after & E & _); destruct before; discriminate.
  - destruct (p v) as [[|]|e] eqn:Hp; simpl.
    + split; [intros _ | reflexivity].
      exists [], p, ps; repeat split; [constructor | exact Hp].
    + rewrite IH; split.
      * intros (before & q & after & -> & F & Hq).
        exists (p :: before), q, after; repeat split; auto.
      * intros (before & q & after & E & F & Hq).
        destruct before as [|p0 before]; simpl in E; inversion E; subst.
        -- congruence.
        -- inversion F; subst; exists before, q, after; auto.
    + split; [discriminate|].
      intros (before & q & after & E & F & Hq).
      destruct before as [|p0 before]; simpl in E; inversion E; subst.
      * congruence.
      * inversion F; subst; congruence.
Qed.

(** ** [getType], [isDate], [isPrimitive] *)

(** X8. [getType] agrees with the guards of the same kinds: it answers
    "array", "regexp", "map", "set", "function", "string", "boolean",
    "symbol", "bigint", "null", "undefined" exactly where [isArray],
    [isRegExp], [isMap], [isSet], [isFunction], [isString], [isBoolean],
    [isSymbol], [isBigInt], [isNull], [isUndefined] answer true. *)
Theorem getType_agrees_with_guards (v : value) :
  (Part001.getType v = Normal (str "array")
   <-> Part001.isArray v = Normal true)
  /\ (Part001.getType v = Normal (str "regexp")
      <-> Part001.isRegExp v = Normal true)
  /\ (Part001.getType v = Normal (str "map")
      <-> Part001.isMap v = Normal true)
  /\ (Part001.getType v = Normal (str "set")
      <-> Part001.isSet v = Normal true)
  /\ (Part001.getType v = Normal (str "function")
      <-> Part001.isFunction v = Normal true)
  /\ (Part001.getType v = Normal (str "string")
      <-> Part001.isString v = Normal true)
  /\ (Part001.getType v = Normal (str "boolean")
      <-> Part001.isBoolean v = Normal true)
  /\ (Part001.getType v = Normal (str "symbol")
      <-> Part001.isSymbol v = Normal true)
  /\ (Part001.getType v = Normal (str "bigint")
      <-> Part001.isBigInt v = Normal true)
  /\ (Part001.getType v = Normal (str "null")
      <-> Part001.isNull v = Normal true)
  /\ (Part001.getType v = Normal (str "undefined")
      <-> Part001.isUndefined v = Normal true).
Proof.
  destruct v as [| | b | n | s | d | z | [c own inh]].
  1-7: repeat split; by_evaluation.
  destruct c; repeat split; by_evaluation.
Qed.

(** X9. [getType] is coarser than [isDate] and [isNumber].  It answers
    "date" on every Date, also an invalid one; [isDate] (the same in both
    implementations) returns true only on Dates, and on a Date that does not
    redefine [getTime] it returns true exactly when the time value is not
    NaN, while a Date whose [getTime] member is no function makes it raise a
    TypeError.  [getType] answers "number" on every number, also NaN and the
    infinities, where [isNumber] requires a finite one. *)
Theorem getType_coarser_than_isDate_isNumber (H : host) (v : value) :
  (Part001.getType v = Normal (str "date")
   <-> exists t own inh, v = VObject (Obj (CDate t) own inh))
  /\ (Part001.isDate H v = Normal true ->
      exists t own inh, v = VObject (Obj (CDate t) own inh))
  /\ (forall t own inh,
         v = VObject (Obj (CDate t) own inh) ->
         redefines v (str "getTime") = false ->
         Part001.isDate H v = Normal (negb (Number_isNaN t)))
  /\ (forall t own inh f,
         v = VObject (Obj (CDate t) own inh) ->
         shadowing_member (Obj (CDate t) own inh) (str "getTime")
         = Some (Normal f) ->
         typeof f <> T_function ->
         Part001.isDate H v = Throw host_TypeError)
  /\ Index.isDate H v = Part001.isDate H v
  /\ (Part001.getType v = Normal (str "number")
      <-> exists n, v = VNumber n)
  /\ (Part001.isNumber v = Normal true
      <-> exists n, v = VNumber n /\ Number_isFinite n = true).
Proof.
  split; [|split; [|split; [|split; [|split; [reflexivity|split]]]]].
  - destruct v as [| | b | n | s | d | z | [c own inh]];
      try (split; [intros E; vm_compute in E; discriminate E
                  | intros (t & o & i & E); discriminate E]).
    destruct c;
      try (split; [intros E; vm_compute in E; discriminate E
                  | intros (t & o & i & E); discriminate E]).
    split; [intros _; eauto | reflexivity].
  - apply Part001_isDate_Date.
  - intros t own inh -> Hr; apply Part001_isDate_builtin; exact Hr.
  - intros t own inh f -> Hs Hf.
    unfold Part001.isDate, Date_getTime; simpl instanceof; cbv iota.
    rewrite Hs; cbn [bind].
    destruct (type_name_eqb (typeof f) T_function) eqn:Ht; [|reflexivity].
    apply type_name_eqb_eq in Ht; congruence.
  - destruct v as [| | b | n | s | d | z | [c own inh]];
      try (split; [intros E; vm_compute in E; discriminate E
                  | intros (n0 & E); discriminate E]).
    + split; [intros _; eauto | reflexivity].
    + destruct c;
        (split; [intros E; vm_compute in E; discriminate E
                | intros (n0 & E); discriminate E]).
  - destruct v as [| | b | n | s | d | z | o]; simpl;
      try (split; [discriminate | intros (n0 & E & _); discriminate E]).
    split.
    + intros E; exists n; split; [reflexivity | congruence].
    + intros (n0 & E & Hf); inversion E; subst; rewrite Hf; reflexivity.
Qed.

Lemma getType_coarser_than_isDate_isNumber_witness :
  redefines (instance (CDate NaN)) (str "getTime") = false
  /\ Part001.getType (instance (CDate NaN)) = Normal (str "date")
  /\ Part001.isDate sample_host (instance (CDate NaN)) = Normal false.
Proof.
  split; [reflexivity|]; split; [reflexivity|].
  apply (proj1 (proj2 (proj2 (getType_coarser_than_isDate_isNumber
                                sample_host (instance (CDate NaN)))))
               NaN [] [] eq_refl eq_refl).
Defined.

(** X10. [isPrimitive] returns true exactly on the values that are no
    objects: those that are neither a function, nor an array, nor any other
    non-null value of type "object". *)
Theorem isPrimitive_not_an_object (v : value) :
  (Part001.isPrimitive v = Normal true <-> forall o, v <> VObject o)
  /\ (Part001.isPrimitive v = Normal true
      <-> Part001.isFunction v = Normal false
          /\ Part001.isArray v = Normal false
          /\ Index.isObject v = Normal false).
Proof.
  destruct v as [| | b | n | s | d | z | [c own inh]];
    try (split; split; [intros _ | reflexivity | intros _ | reflexivity];
         try (repeat split; fail); intros o; discriminate).
  split; split.
  - destruct c; discriminate.
  - intros Hn; exfalso; exact (Hn _ eq_refl).
  - destruct c; discriminate.
  - destruct c; intros (Hf & Ha & Ho); discriminate.
Qed.

(** ** [isNonEmptyArray] and [isNonEmptyObject] *)

(** X11. [isNonEmptyArray] returns true exactly on the arrays that
    [isEmpty] finds not empty; the length counts holes, so an array of holes
    only is not empty. *)
Theorem isNonEmptyArray_array_not_empty :
  (forall v, Part001.isNonEmptyArray v = Normal true
             <-> Part001.isArray v = Normal true
                 /\ Part001.isEmpty v = Normal false)
  /\ (forall n own inh,
         Part001.isNonEmptyArray
           (VObject (Obj (CArray (repeat None (S n))) own inh)) = Normal true).
Proof.
  split; [|reflexivity].
  intros v; destruct v as [| | b | n | s | d | z | [c own inh]];
    try (split; [discriminate | intros [E _]; discriminate E]).
  destruct c as [| es | k | t | | n | n | | k | b | n | s];
    try (split; [discriminate | intros [E _]; discriminate E]).
  simpl; destruct es; simpl; split; try discriminate; auto.
  intros [_ E]; discriminate E.
Qed.

Lemma jsstring_eqb_refl (k : jsstring) : jsstring_eqb k k = true.
Proof. apply jsstring_eqb_eq; reflexivity. Qed.

Lemma length_zero_iff (A : Type) (l : list A) :
  ((List.length l =? 0) = true <-> l = [])
  /\ ((0 <? List.length l) = true <-> l <> []).
Proof.
  destruct l; simpl; repeat split; try discriminate; try reflexivity.
  intros Hn; exfalso; apply Hn; reflexivity.
Qed.

(** The listed keys are the keys not yet seen whose effective binding is
    enumerable. *)
Lemma enumerable_keys_nonempty (ps : list (jsstring * property)) :
  forall seen,
    enumerable_keys seen ps <> []
    <-> exists k p, existsb (jsstring_eqb k) seen = false
                    /\ lookup k ps = Some p /\ enumerable p = true.
Proof.
  induction ps as [|[k0 p0] r IH]; intros seen; simpl.
  - split; [congruence | intros (k & p & _ & E & _); discriminate E].
  - destruct (existsb (jsstring_eqb k0) seen) eqn:Hs.
    + rewrite IH; split; intros (k & p & Hk & Hl & He); exists k, p;
        (split; [exact Hk|]); (split; [|exact He]);
        destruct (jsstring_eqb k k0) eqn:Ek;
        try (apply jsstring_eqb_eq in Ek; subst k0; congruence);
        exact Hl.
    + destruct (enumerable p0) eqn:He0.
      * split; [intros _ | simpl; discriminate].
        exists k0, p0; rewrite jsstring_eqb_refl; auto.
      * simpl app; rewrite IH; split; intros (k & p & Hk & Hl & He).
        -- simpl in Hk; apply orb_false_iff in Hk; destruct Hk as [Ek Hk].
           exists k, p; rewrite Ek; auto.
        -- destruct (jsstring_eqb k k0) eqn:Ek.
           ++ inversion Hl; subst p0; congruence.
           ++ exists k, p; simpl; rewrite Ek; auto.
Qed.

(** X12. [isNonEmptyObject] returns true exactly on the plain objects that
    own an enumerable property: a property that is not enumerable, or that
    sits on a prototype, does not count.  It is true exactly where
    [isObject] is true and [isEmpty] is false. *)
Theorem isNonEmptyObject_enumerable_own_key (v : value) :
  (Part001.isNonEmptyObject v = Normal true
   <-> exists own inh k p,
       v = VObject (Obj COrdinary own inh)
       /\ lookup k own = Some p /\ enumerable p = true)
  /\ (Part001.isNonEmptyObject v = Normal true
      <-> Part001.isObject v = Normal true
          /\ Part001.isEmpty v = Normal false).
Proof.
  destruct v as [| | b | n | s | d | z | [c own inh]];
    try (split; split;
         [discriminate | intros (o & i & k & p & E & _); discriminate E
         | discriminate | intros [E _]; discriminate E]).
  destruct c as [| es | k | t | | n | n | | k | b | n | s];
    try destruct k;
    try (split; split;
         [discriminate | intros (o & i & k0 & p & E & _); discriminate E
         | discriminate | intros [E _]; discriminate E]).
  assert (Hkeys : Object_keys (Obj COrdinary own inh) = enumerable_keys [] own)
    by reflexivity.
  assert (Hne : Part001.isNonEmptyObject (VObject (Obj COrdinary own inh))
                = Normal (0 <? List.length (enumerable_keys [] own)))
    by reflexivity.
  assert (He : Part001.isEmpty (VObject (Obj COrdinary own inh))
               = Normal (List.length (enumerable_keys [] own) =? 0))
    by reflexivity.
  rewrite Hne, He; split.
  - split.
    + intros E.
      assert (Hn : enumerable_keys [] own <> [])
        by (apply length_zero_iff; congruence).
      apply enumerable_keys_nonempty in Hn.
      destruct Hn as (k & p & _ & Hl & Hp); exists own, inh, k, p; auto.
    + intros (o & i & k & p & E & Hl & Hp); inversion E; subst o i.
      assert (Hn : enumerable_keys [] own <> [])
        by (apply enumerable_keys_nonempty; exists k, p; auto).
      apply length_zero_iff in Hn; rewrite Hn; reflexivity.
  - destruct (enumerable_keys [] own); simpl; split; try discriminate; auto.
    intros [_ E]; discriminate E.
Qed.

(** ** The two implementations side by side *)

(** X13. The [isObject] of [src/index.ts] accepts everything the tag-based
    [isObject] of [part_001] accepts, and besides exactly the values of type
    "object" of a specialized built-in kind (Date, RegExp, Map, Set,
    Promise, Error and the wrapper objects; not functions). *)
Theorem isObject_index_wider (v : value) :
  Index.isObject v = Normal true
  <-> Part001.isObject v = Normal true
      \/ exists o, v = VObject o
                   /\ typeof v = T_object
                   /\ specialized_kind (class_of o) = true.
Proof.
  destruct v as [| | b | n | s | d | z | [c own inh]];
    try (split; [discriminate
                | intros [E | (o & E & _)]; discriminate E]).
  destruct c as [| es | k | t | | n | n | | k | b | n | s];
    try destruct k;
    first
      [ (* plain records *)
        solve [split; [intros _; left; reflexivity | reflexivity]]
      | (* specialized kinds of type "object" *)
        solve [split; [intros _; right; eexists; repeat split; reflexivity
                      | reflexivity]]
      | (* arrays and functions *)
        solve [split; [discriminate
                      | intros [E | (o & E & Ht & Hk)];
                        [discriminate E
                        | try discriminate Ht;
                          inversion E; subst o; discriminate Hk]]] ].
Qed.

Lemma Normal_neq_false (b : bool) :
  @Normal value bool b <> Normal false <-> b = true.
Proof. destruct b; split; congruence. Qed.

(** X14. The two implementations of [isEmpty] give different results on
    exactly three kinds of values: a non-empty string of white space; an
    object of type "object" that is no plain record, array, Map or Set and
    has no enumerable own key (a Date, a RegExp, a Promise, an Error, a
    wrapper object); and a Map or Set whose [size] raises when read.  On
    every other value they agree. *)
Theorem isEmpty_implementations_differ_exactly (v : value) :
  Index.isEmpty v <> Part001.isEmpty v <-> isEmpty_disagreement v.
Proof.
  unfold isEmpty_disagreement.
  destruct v as [| | b | n | s | d | z | [c own inh]];
    try (split;
         [intros Hd; exfalso; apply Hd; reflexivity
         | intros [(s0 & E & _) | [(o & E & _) | (e & [E|E] & _)]];
           discriminate E]).
  - (* strings *)
    assert (Hi : Index.isEmpty (VString s) = Normal (List.length s =? 0))
      by reflexivity.
    assert (Hp : Part001.isEmpty (VString s)
                 = Normal (List.length (trim s) =? 0)) by reflexivity.
    rewrite Hi, Hp; split.
    + intros Hd; left; exists s; split; [reflexivity|].
      destruct s as [|c s]; [exfalso; apply Hd; reflexivity|].
      split; [discriminate|].
      apply trim_nil_iff.
      destruct (trim (c :: s)); [reflexivity|].
      exfalso; apply Hd; reflexivity.
    + intros [(s0 & E & Hn & Hw) | [(o & E & _) | (e & [E|E] & _)]];
        try discriminate E.
      inversion E; subst s0.
      rewrite (trim_whitespace_only s Hw).
      destruct s; [congruence | simpl; discriminate].
  - (* objects *)
    destruct c as [| es | k | t | | n | n | | k | b | n | s];
      try destruct k;
      (* plain records, arrays and functions: the same result *)
      try (split;
           [intros Hd; exfalso; apply Hd; reflexivity
           | intros [(s0 & E & _)
                    | [(o & E & Ht & Hk & _) | (e & [E|E] & _)]];
             try discriminate E; try discriminate Ht;
             inversion E; subst o; discriminate Hk]);
      (* Map and Set: the result of reading [size] decides *)
      try (unfold Index.isEmpty, Part001.isEmpty; simpl loosely_null;
           cbv iota; simpl instanceof; simpl orb; cbv iota;
           destruct (GetV _ (str "size")) as [x|e0] eqn:G; simpl;
           [ split;
             [ intros Hd; exfalso; apply Hd; reflexivity
             | intros [(s0 & E & _)
                      | [(o & E & _ & _ & Hm & Hs & _) | (e & _ & E)]];
               try discriminate E; try discriminate Hm; try discriminate Hs ]
           | split;
             [ intros _; right; right; exists e0; split; [auto | reflexivity]
             | intros _; discriminate ] ]);
      (* the other kinds: empty for index.ts when no key is enumerable *)
      (match goal with
       | |- _ <> Part001.isEmpty (VObject ?ob) <-> _ =>
           change (Index.isEmpty (VObject ob))
             with (@Normal value bool (List.length (Object_keys ob) =? 0));
           change (Part001.isEmpty (VObject ob))
             with (@Normal value bool false)
       end;
       rewrite Normal_neq_false; split;
       [ intros Hl; apply length_zero_iff in Hl;
         right; left; eexists; repeat split; exact Hl
       | intros [(s0 & E & _)
                | [(o & E & _ & _ & _ & _ & Hk) | (e & [E|E] & _)]];
         try discriminate E;
         inversion E; subst o; apply length_zero_iff; exact Hk ]).
Qed.

(** ** [isAsyncFunction] *)

Lemma strictly_string_eq (v : value) (s : jsstring) :
  strictly_string v s = true <-> v = VString s.
Proof.
  destruct v; simpl; try (split; [discriminate | intros E; discriminate E]).
  rewrite jsstring_eqb_eq; split; [intros -> | intros E; inversion E];
    reflexivity.
Qed.

(** X15. [isAsyncFunction] decides by name: it returns true exactly on the
    functions whose [constructor] member has the [name] "AsyncFunction".  On
    a function that does not redefine [constructor] that means exactly the
    async functions (an async generator function is not one); a synchronous
    function whose [constructor] was set to an object of that name is
    accepted as well. *)
Theorem isAsyncFunction_by_constructor_name :
  (forall v, Part001.isAsyncFunction v = Normal true
             <-> typeof v = T_function
                 /\ exists c, GetV v (str "constructor") = Normal c
                              /\ GetV c (str "name")
                                 = Normal (VString (str "AsyncFunction")))
  /\ (forall k, Part001.isAsyncFunction (instance (CFunction k)) = Normal true
                <-> k = AsyncFunction)
  /\ Part001.isAsyncFunction function_posing_as_async = Normal true.
Proof.
  split; [|split; [|reflexivity]].
  - intros v; unfold Part001.isAsyncFunction.
    destruct (type_name_eqb (typeof v) T_function) eqn:Ht.
    + apply type_name_eqb_eq in Ht.
      destruct (GetV v (str "constructor")) as [c|e] eqn:Gc; simpl.
      * destruct (GetV c (str "name")) as [n|e] eqn:Gn; simpl.
        -- split.
           ++ intros E; split; [exact Ht|]; exists c; split; [reflexivity|].
              assert (Hs : strictly_string n (str "AsyncFunction") = true)
                by congruence.
              apply strictly_string_eq in Hs; subst n; exact Gn.
           ++ intros (_ & c' & Ec & En); inversion Ec; subst c'.
              rewrite Gn in En; inversion En; reflexivity.
        -- split; [discriminate|].
           intros (_ & c' & Ec & En); inversion Ec; subst c'; congruence.
      * split; [discriminate | intros (_ & c' & Ec & _); discriminate Ec].
    + split; [discriminate|].
      intros (Hf & _); apply type_name_eqb_eq in Hf; congruence.
  - intros k; destruct k; split; try reflexivity; try discriminate;
      intros E; vm_compute in E; discriminate E.
Qed.

(** ** [assertType] when the value has no text *)

(** X16. When the assertion fails and no message (or the empty one) was
    given, the default message needs the string conversion of the value; if
    that conversion raises, what it raises escapes in place of the assertion
    error.  That is the case for every symbol, on every host. *)
Theorem assertType_conversion_failure
        (H : host) (v : value) (p : predicate) (message : option jsstring) :
  p v = Normal false ->
  message = None \/ message = Some [] ->
  (forall e, ToString H v = Throw e ->
             Part001.assertType H v p message = Throw e)
  /\ (forall d, v = VSymbol d ->
                Part001.assertType H v p message = Throw host_TypeError).
Proof.
  intros Hp Hm; unfold Part001.assertType; rewrite Hp; simpl.
  split.
  - intros e He; destruct Hm as [-> | ->]; simpl; rewrite He; reflexivity.
  - intros d ->; destruct Hm as [-> | ->]; reflexivity.
Qed.

Lemma assertType_conversion_failure_witness :
  Part001.isString (VSymbol None) = Normal false
  /\ Part001.assertType sample_host (VSymbol None) Part001.isString None
     = Throw host_TypeError.
Proof.
  split; [reflexivity|].
  apply (proj2 (assertType_conversion_failure
                  sample_host (VSymbol None) Part001.isString None
                  eq_refl (or_introl eq_refl)) None eq_refl).
Defined.

(** ** [isEmail] *)

Lemma lang_Star_Class (p : N -> bool) (s : jsstring) :
  lang (Star (Class p)) s <-> forallb p s = true.
Proof.
  split.
  - intros L; remember (Star (Class p)) as r eqn:Er.
    induction L as [| | | | | |r0 w1 w2 L1 IH1 L2 IH2]; try discriminate.
    + reflexivity.
    + inversion Er; subst r0.
      apply lang_Class_inv in L1; destruct L1 as (c & -> & Hc).
      simpl; rewrite Hc; exact (IH2 Er).
  - induction s as [|c s IH]; simpl; [constructor|].
    rewrite andb_true_iff; intros [Hc Hs].
    apply (lang_Star_cons (Class p) [c] s); [constructor; exact Hc | auto].
Qed.

Lemma lang_Plus_Class (p : N -> bool) (s : jsstring) :
  lang (Plus (Class p)) s <-> s <> [] /\ forallb p s = true.
Proof.
  unfold Plus; rewrite lang_Cat_inv; split.
  - intros (s1 & s2 & -> & L1 & L2).
    apply lang_Class_inv in L1; destruct L1 as (c & -> & Hc).
    apply lang_Star_Class in L2; simpl; rewrite Hc, L2.
    split; [discriminate | reflexivity].
  - intros [Hn Hs]; destruct s as [|c s]; [congruence|].
    simpl in Hs; apply andb_true_iff in Hs; destruct Hs as [Hc Hs].
    exists [c], s; repeat split;
      [constructor; exact Hc | apply lang_Star_Class; exact Hs].
Qed.

Lemma emailRegex_layout (s : jsstring) :
  matches Part001.emailRegex s = true <-> email_layout s.
Proof.
  rewrite matches_lang; unfold Part001.emailRegex, email_layout; split.
  - intros L.
    apply lang_Cat_inv in L; destruct L as (a & t1 & -> & La & L).
    apply lang_Plus_Class in La; destruct La as [Na Fa].
    apply lang_Cat_inv in L; destruct L as (x & t2 & -> & Lx & L).
    apply lang_Char_inv in Lx; subst x.
    apply lang_Cat_inv in L; destruct L as (b & t3 & -> & Lb & L).
    apply lang_Plus_Class in Lb; destruct Lb as [Nb Fb].
    apply lang_Cat_inv in L; destruct L as (y & c & -> & Ly & Lc).
    apply lang_Char_inv in Ly; subst y.
    apply lang_Plus_Class in Lc; destruct Lc as [Nc Fc].
    exists a, b, c; repeat split; assumption.
  - intros (a & b & c & -> & Na & Nb & Nc & Fa & Fb & Fc).
    apply lang_Cat; [apply lang_Plus_Class; auto|].
    apply lang_Cat; [apply lang_Char_inv; reflexivity|].
    apply lang_Cat; [apply lang_Plus_Class; auto|].
    apply lang_Cat; [apply lang_Char_inv; reflexivity|].
    apply lang_Plus_Class; auto.
Qed.

(** X17. [isEmail] returns true exactly on the strings made of three
    non-empty runs of characters that are neither white space nor [@], with
    an [@] between the first two and a dot between the last two. *)
Theorem isEmail_layout (v : value) :
  Part001.isEmail v = Normal true
  <-> exists s, v = VString s /\ email_layout s.
Proof.
  destruct v as [| | b | n | s | d | z | o]; simpl;
    try (split; [discriminate | intros (s0 & E & _); discriminate E]).
  split.
  - intros E; exists s; split; [reflexivity|].
    apply emailRegex_layout; congruence.
  - intros (s0 & E & L); inversion E; subst s0.
    apply emailRegex_layout in L; rewrite L; reflexivity.
Qed.

Lemma not_space_or_at_run (l : jsstring) :
  forallb Part001.not_space_or_at l = true ->
  forallb (fun c => negb (is_white_space c)) l = true
  /\ count_occ N.eq_dec l 64%N = 0.
Proof.
  induction l as [|c l IH]; simpl; [auto|].
  rewrite andb_true_iff; intros [Hc Hl]; destruct (IH Hl) as [Hw Hn].
  unfold Part001.not_space_or_at in Hc.
  apply negb_true_iff, orb_false_iff in Hc; destruct Hc as [Hs Hat].
  rewrite Hs, Hw; split; [reflexivity|].
  destruct (N.eq_dec c 64) as [->|_]; [discriminate Hat | exact Hn].
Qed.

(** X18. A string [isEmail] accepts holds no white space and exactly one
    [@]. *)
Theorem isEmail_one_at_no_space (s : jsstring) :
  Part001.isEmail (VString s) = Normal true ->
  forallb (fun c => negb (is_white_space c)) s = true
  /\ count_occ N.eq_dec s 64%N = 1.
Proof.
  intros E.
  assert (L : email_layout s) by (apply emailRegex_layout; simpl in E; congruence).
  destruct L as (a & b & c & -> & _ & _ & _ & Fa & Fb & Fc).
  destruct (not_space_or_at_run a Fa) as [Wa Ca].
  destruct (not_space_or_at_run b Fb) as [Wb Cb].
  destruct (not_space_or_at_run c Fc) as [Wc Cc].
  rewrite !forallb_app, !count_occ_app, Wa, Wb, Wc, Ca, Cb, Cc.
  split; reflexivity.
Qed.

Lemma isEmail_one_at_no_space_witness :
  Part001.isEmail (VString (str "user@example.com")) = Normal true
  /\ count_occ N.eq_dec (str "user@example.com") 64%N = 1.
Proof.
  split; [vm_compute; reflexivity|].
  apply (isEmail_one_at_no_space (str "user@example.com")).
  vm_compute; reflexivity.
Defined.

(** ** [isUuid]: length and letter case *)

Lemma derive_respect (f : N -> N) (c : N) (r : regex) :
  classes_respect f r -> derive (f c) r = derive c r.
Proof.
  induction r as [| | p | r1 IH1 r2 IH2 | r1 IH1 r2 IH2 | r IH]; simpl;
    try reflexivity.
  - intros Hp; rewrite Hp; reflexivity.
  - intros [H1 H2]; rewrite IH1, IH2 by assumption; reflexivity.
  - intros [H1 H2]; rewrite IH1, IH2 by assumption; reflexivity.
  - intros Hr; rewrite IH by assumption; reflexivity.
Qed.

Lemma classes_respect_derive (f : N -> N) (c : N) (r : regex) :
  classes_respect f r -> classes_respect f (derive c r).
Proof.
  induction r as [| | p | r1 IH1 r2 IH2 | r1 IH1 r2 IH2 | r IH]; simpl;
    try tauto.
  - intros _; destruct (p c); exact I.
  - intros [H1 H2]; destruct (nullable r1); simpl; auto.
Qed.

Lemma matches_respect (f : N -> N) (s : jsstring) :
  forall r, classes_respect f r -> matches r (map f s) = matches r s.
Proof.
  induction s as [|c s IH]; intros r Hr; simpl; [reflexivity|].
  rewrite derive_respect by exact Hr.
  apply IH, classes_respect_derive; exact Hr.
Qed.

Lemma hex_class_canonicalize (c : N) :
  Part001.hex_class (canonicalize c) = Part001.hex_class c.
Proof.
  rewrite !hex_class_hex_digit.
  unfold hex_digit, canonicalize, between.
  destruct (code_unit_ranges c) as [R|[R|[R|[R|[R|[R|[R|[R|R]]]]]]]];
    settle_comparisons; reflexivity.
Qed.

Lemma version_class_canonicalize (c : N) :
  Part001.version_class (canonicalize c) = Part001.version_class c.
Proof.
  rewrite !version_class_digit.
  unfold canonicalize, between.
  destruct (code_unit_ranges c) as [R|[R|[R|[R|[R|[R|[R|[R|R]]]]]]]];
    settle_comparisons; reflexivity.
Qed.

Lemma variant_class_canonicalize (c : N) :
  Part001.variant_class (canonicalize c) = Part001.variant_class c.
Proof.
  assert (Hb : forall x y : bool, (x = true <-> y = true) -> x = y).
  { intros [|] [|] Hxy; try reflexivity;
      [symmetry; apply Hxy | apply Hxy]; reflexivity. }
  apply Hb; rewrite !variant_class_members.
  unfold canonicalize, between; simpl In.
  destruct (code_unit_ranges c) as [R|[R|[R|[R|[R|[R|[R|[R|R]]]]]]]];
    settle_comparisons; lia.
Qed.

Lemma hyphen_canonicalize (c : N) : N.eqb 45 (canonicalize c) = N.eqb 45 c.
Proof.
  unfold canonicalize, between.
  destruct (code_unit_ranges c) as [R|[R|[R|[R|[R|[R|[R|[R|R]]]]]]]];
    settle_comparisons; reflexivity.
Qed.

Lemma uuidRegex_respects_case : classes_respect canonicalize Part001.uuidRegex.
Proof.
  unfold Part001.uuidRegex, Char; simpl.
  repeat split; intros c;
    first [ apply hex_class_canonicalize
          | apply version_class_canonicalize
          | apply variant_class_canonicalize
          | apply hyphen_canonicalize ].
Qed.

(** X19. [isUuid] does not depend on the case of the letters: a string and
    the string with its letters a-z put in upper case get the same result. *)
Theorem isUuid_ignores_case (s : jsstring) :
  Part001.isUuid (VString (map canonicalize s)) = Part001.isUuid (VString s).
Proof.
  simpl; rewrite (matches_respect canonicalize s _ uuidRegex_respects_case).
  reflexivity.
Qed.

(** X20. A string [isUuid] accepts has exactly 36 code units, with hyphens
    at the positions 8, 13, 18 and 23. *)
Theorem isUuid_length_36 (s : jsstring) :
  Part001.isUuid (VString s) = Normal true ->
  List.length s = 36
  /\ nth_error s 8 = Some 45%N /\ nth_error s 13 = Some 45%N
  /\ nth_error s 18 = Some 45%N /\ nth_error s 23 = Some 45%N.
Proof.
  intros E.
  assert (L : uuid_layout s)
    by (apply uuidRegex_layout; simpl in E; congruence).
  destruct L as (g1 & g2 & ver & g3 & var & g4 & g5 & -> &
                 E1 & E2 & E3 & E4 & E5 & _).
  repeat (destruct g1 as [|? g1]; try discriminate E1).
  repeat (destruct g2 as [|? g2]; try discriminate E2).
  repeat (destruct g3 as [|? g3]; try discriminate E3).
  repeat (destruct g4 as [|? g4]; try discriminate E4).
  simpl; rewrite E5; repeat split.
Qed.

Lemma isUuid_length_36_witness :
  Part001.isUuid (VString (str "123e4567-e89b-12d3-a456-426614174000"))
  = Normal true
  /\ List.length (str "123e4567-e89b-12d3-a456-426614174000") = 36.
Proof.
  split; [vm_compute; reflexivity|].
  apply (isUuid_length_36 (str "123e4567-e89b-12d3-a456-426614174000")).
  vm_compute; reflexivity.
Defined.

(** ** [isJsonSerializable] on primitives *)

(** X21. On a primitive value, whatever the host, [isJsonSerializable]
    returns false exactly for a BigInt: it is the one primitive the
    serializer raises on. *)
Theorem isJsonSerializable_primitives (H : host) (v : value) :
  Part001.isPrimitive v = Normal true ->
  (Part001.isJsonSerializable H v = Normal false
   <-> Part001.isBigInt v = Normal true).
Proof.
  destruct v as [| | b | n | s | d | z | [c own inh]];
    try (intros _; split; intros E; try reflexivity; discriminate E).
  destruct c; intros E; discriminate E.
Qed.

Lemma isJsonSerializable_primitives_witness :
  Part001.isPrimitive (VBigInt 7) = Normal true
  /\ Part001.isJsonSerializable sample_host (VBigInt 7) = Normal false.
Proof.
  split; [reflexivity|].
  apply (isJsonSerializable_primitives sample_host (VBigInt 7) eq_refl).
  reflexivity.
Defined.

(** ** When the guards of [part_001] raise *)

(** X22. The three guards of [part_001] that read a property without
    protection raise exactly what that read raises, and nothing else:
    [isAsyncFunction] when reading [constructor] from a function, or [name]
    from that constructor, raises; [isPromise] when reading [then] from a
    non-null value of type "object" that is no Promise raises; [isEmpty]
    when reading [size] from a Map or a Set raises. *)
Theorem unprotected_reads_raise (v e : value) :
  (Part001.isAsyncFunction v = Throw e
   <-> typeof v = T_function
       /\ (GetV v (str "constructor") = Throw e
           \/ exists c, GetV v (str "constructor") = Normal c
                        /\ GetV c (str "name") = Throw e))
  /\ (Part001.isPromise v = Throw e
      <-> typeof v = T_object /\ v <> VNull
          /\ instanceof v Promise_ = false
          /\ GetV v (str "then") = Throw e)
  /\ (Part001.isEmpty v = Throw e
      <-> (instanceof v Map_ = true \/ instanceof v Set_ = true)
          /\ GetV v (str "size") = Throw e).
Proof.
  split; [|split].
  - split; [apply Part001_isAsyncFunction_raises|].
    intros [Ht Hg]; unfold Part001.isAsyncFunction.
    rewrite Ht; change (type_name_eqb T_function T_function) with true;
      cbv iota.
    destruct Hg as [Hg | (c & Hc & Hn)].
    + rewrite Hg; reflexivity.
    + rewrite Hc; cbn [bind]; rewrite Hn; reflexivity.
  - split.
    + intros E; destruct (Part001_isPromise_raises v e E) as [Ht Hg].
      repeat split; try assumption.
      * intros ->; discriminate E.
      * destruct (instanceof v Promise_) eqn:Hi; [|reflexivity].
        unfold Part001.isPromise in E; rewrite Hi in E; discriminate E.
    + intros (Ht & Hn & Hi & Hg); unfold Part001.isPromise.
      rewrite Hi, Ht; simpl.
      destruct v; try (exfalso; apply Hn; reflexivity);
        rewrite Hg; reflexivity.
  - split; [apply Part001_isEmpty_raises|].
    intros [Hi Hg].
    destruct v as [| | b | n | s | d | z | [c own inh]];
      try (destruct Hi as [Hi|Hi]; discriminate Hi).
    destruct c; try (destruct Hi as [Hi|Hi]; discriminate Hi);
      unfold Part001.isEmpty; simpl loosely_null; cbv iota;
      simpl instanceof; simpl orb; cbv iota; rewrite Hg; reflexivity.
Qed.

(** X23. The [isEmpty] of [src/index.ts] never raises: where the [isEmpty]
    of [part_001] raises, it returns false. *)
Theorem isEmpty_index_catches (v : value) :
  (exists b, Index.isEmpty v = Normal b)
  /\ (forall e, Part001.isEmpty v = Throw e -> Index.isEmpty v = Normal false).
Proof.
  split; [apply Index_guards_never_raise|].
  intros e E; destruct (Part001_isEmpty_raises v e E) as [Hi Hg].
  destruct v as [| | b | n | s | d | z | [c own inh]];
    try (destruct Hi as [Hi|Hi]; discriminate Hi).
  destruct c; try (destruct Hi as [Hi|Hi]; discriminate Hi);
    unfold Index.isEmpty; simpl loosely_null; cbv iota;
    simpl instanceof; simpl orb; cbv iota; rewrite Hg; reflexivity.
Qed.

(** X24. [getType] always returns, and what it returns is one of fifteen
    names. *)
Theorem getType_fifteen_names (v : value) :
  exists t, Part001.getType v = Normal t
            /\ In t [str "null"; str "undefined"; str "array"; str "date";
                     str "regexp"; str "map"; str "set"; str "promise";
                     str "string"; str "number"; str "boolean";
                     str "function"; str "object"; str "symbol";
                     str "bigint"].
Proof.
  destruct v as [| | b | n | s | d | z | [c own inh]];
    try (eexists; split; [reflexivity | simpl; tauto]).
  destruct c; eexists; (split; [reflexivity | simpl; tauto]).
Qed.

Lemma isEmpty_index_catches_witness :
  Part001.isEmpty map_with_raising_size
  = Throw (error_object ErrorKind (Some (str "no")))
  /\ Index.isEmpty map_with_raising_size = Normal false.
Proof.
  split; [reflexivity|].
  apply (proj2 (isEmpty_index_catches map_with_raising_size)
               (error_object ErrorKind (Some (str "no")))).
  reflexivity.
Defined.
